(** * quantcharts: polyline converters and mouse-driven pan/zoom

    Shallow embedding of [qc/dataproc.py] and [qc/experiments/plotpyex.py].

    - Python integers are [Z]; lengths and buffer offsets are [nat].
    - A [QPolygonF] is an object on a heap; its storage is the flat buffer of
      coordinates [x0, y0, x1, y1, ...] that [polyline.data()] exposes and
      that [np.frombuffer] views without copying.
    - A numpy view is the list of buffer offsets it addresses, so a slice of
      a slice still writes into the polygon it came from.
    - Axis values are Python floats and C++ doubles: IEEE 754 binary64, here
      the primitive [float], whose operations round as the code's do.
    - What the GUI toolkit does on its side (a polygon of negative size, the
      base-class event handlers, [QChart.scroll], the axes that
      [QChart.createDefaultAxes] builds) is not in the repository: those are
      parameters of the development. *)

From Stdlib Require Import ZArith Lia.
From Stdlib Require Import Floats.PrimFloat Numbers.Cyclic.Int63.Uint63.
From stdpp Require Import base option list.

#[local] Open Scope Z_scope.
#[local] Open Scope nat_scope.

(** ** Python layer: exceptions, slices *)

Inductive exn : Type :=
| ValueError_same_len
    (* raise ValueError("x and y must have the same len") *)
| ValueError_broadcast (src dst : nat)
    (* numpy: could not broadcast input array from shape (src,) into shape (dst,) *)
| QPolygonF_refused (size : Z)
    (* the toolkit does not build a polygon of that size *)
| AttributeError
    (* method call on None *)
| TypeError.
    (* arithmetic on None, or None passed where a number is expected *)

Inductive outcome (R : Type) : Type :=
| Ok (r : R)
| Raise (e : exn).
Arguments Ok {R} r.
Arguments Raise {R} e.

(** [l[skip::step]] for [step >= 1]. *)
Fixpoint every {B : Type} (step skip : nat) (l : list B) : list B :=
  match l with
  | [] => []
  | b :: l' =>
      match skip with
      | O => b :: every step (step - 1) l'
      | S s => every step s l'
      end
  end.

(** A slice bound after Python's adjustment for a positive step: a negative
    bound counts from the end, and the result is clamped to [0, len]. *)
Definition adjust (len dflt : Z) (i : option Z) : nat :=
  match i with
  | None => Z.to_nat dflt
  | Some i =>
      let i := if (i <? 0)%Z then (i + len)%Z else i in
      Z.to_nat (Z.max 0 (Z.min i len))
  end.

(** [l[start:stop:step]] with [step >= 1]; [None] is an omitted bound. *)
Definition py_slice {B : Type} (l : list B) (start stop : option Z) (step : nat)
  : list B :=
  let len := Z.of_nat (length l) in
  let s := adjust len 0 start in
  let e := adjust len len stop in
  every step 0 (drop s (take e l)).

(** ** Toolkit values the handlers look at *)

Inductive MouseButton : Type :=
| NoButton | LeftButton | RightButton | MiddleButton | ExtraButton (n : nat).

(** [Qt.KeyboardModifiers] is a set of flags. *)
Definition NoModifier : Z := 0.
Definition ShiftModifier : Z := 0x02000000.
Definition ControlModifier : Z := 0x04000000.
Definition AltModifier : Z := 0x08000000.
Definition MetaModifier : Z := 0x10000000.

Record QMouseEvent : Type := {
  button : MouseButton;
  modifiers : Z;
  event_x : Z;
  event_y : Z
}.

Inductive RubberBand : Type := NoRubberBand | RectangleRubberBand.

(** An integer as a double, as numpy and Python convert one in mixed
    arithmetic. Meant for magnitudes below 2^63, exact up to 2^53; the
    handlers convert clamped mouse deltas, of magnitude 10 at most. *)
Definition float_of_int (z : Z) : float :=
  match z with
  | Z0 => 0%float
  | Zpos _ => PrimFloat.of_uint63 (Uint63.of_Z z)
  | Zneg p => PrimFloat.opp (PrimFloat.of_uint63 (Uint63.of_Z (Zpos p)))
  end.

(** A value axis keeps the two ends of its range, as doubles; the setters
    store them. *)
Record QValueAxis : Type := { axis_min : float; axis_max : float }.

Definition setRange (lo hi : float) (axis : QValueAxis) : QValueAxis :=
  {| axis_min := lo; axis_max := hi |}.
Definition setMin (lo : float) (axis : QValueAxis) : QValueAxis :=
  {| axis_min := lo; axis_max := axis_max axis |}.
Definition setMax (hi : float) (axis : QValueAxis) : QValueAxis :=
  {| axis_min := axis_min axis; axis_max := hi |}.

(** The X axis and the Y axis of a chart. *)
Definition Ranges : Type := QValueAxis * QValueAxis.

(** ** qc/experiments/plotpyex.py: MouseTracker *)

Module MouseTracker.

Record t : Type := {
  _total_dx : Z;
  _total_dy : Z;
  _x : option Z;
  _y : option Z
}.

Definition init : t :=
  {| _total_dx := 0; _total_dy := 0; _x := None; _y := None |}.

Definition start (event : QMouseEvent) (self : t) : t :=
  {| _total_dx := _total_dx self; _total_dy := _total_dy self;
     _x := Some (event_x event); _y := Some (event_y event) |}.

(** [x - self._x] is a TypeError while [self._x] is None. *)
Definition track (event : QMouseEvent) (self : t) : outcome (t * (Z * Z)) :=
  let x := event_x event in
  let y := event_y event in
  match _x self, _y self with
  | Some x0, Some y0 =>
      let dx := (x - x0)%Z in
      let dy := (y - y0)%Z in
      Ok ({| _total_dx := _total_dx self + dx; _total_dy := _total_dy self + dy;
             _x := Some x; _y := Some y |}, (dx, dy))
  | _, _ => Raise TypeError
  end.

Definition totals (self : t) : Z * Z := (_total_dx self, _total_dy self).

Definition reset (self : t) : t :=
  {| _total_dx := 0; _total_dy := 0; _x := _x self; _y := _y self |}.

End MouseTracker.

(** ** A sample toolkit and sample events, for closed instances *)

Module Sample.

(** PyQt5's [QPolygonF(n)] for a negative [n]: an empty polygon. *)
Definition negative_size : Z -> option nat := fun _ => Some 0.

Definition ranges : Ranges :=
  ({| axis_min := 0%float; axis_max := 100%float |},
   {| axis_min := 0%float; axis_max := 50%float |}).

Definition default_axes {A : Type} : list (list A) -> option Ranges :=
  fun _ => Some ranges.

(** One pixel scrolls one unit. *)
Definition scroll (dx dy : Z) (r : Ranges) : Ranges :=
  ({| axis_min := (axis_min r.1 + float_of_int dx)%float;
      axis_max := (axis_max r.1 + float_of_int dx)%float |},
   {| axis_min := (axis_min r.2 + float_of_int dy)%float;
      axis_max := (axis_max r.2 + float_of_int dy)%float |}).

(** Base-class handlers that leave the axes alone. *)
Definition base : QMouseEvent -> RubberBand -> Ranges -> Ranges :=
  fun _ _ r => r.

Definition mouse (b : MouseButton) (m x y : Z) : QMouseEvent :=
  {| button := b; modifiers := m; event_x := x; event_y := y |}.

End Sample.

#[local] Open Scope nat_scope.

Section Toolkit.

(** The buffer holds float64 values; the converters only move them. [zero] is
    the coordinate of a default-constructed [QPointF]. *)
Context {A : Type} (zero : A).

(** What [QPolygonF(size)] does for [size < 0]: [None] when the constructor
    refuses, [Some k] when it yields a polygon of [k] points. PyQt5 yields
    an empty polygon, [Some 0]: that is [Sample.negative_size]. *)
Variable QPolygonF_negative : Z -> option nat.

(** *** Heap of polygons and the converter monad *)

(** A reference is a position in the heap; the heap holds the storage of
    every polygon built so far. *)
Abbreviation ref := nat (only parsing).
Abbreviation heap := (list (list A)) (only parsing).

Definition M (R : Type) : Type := heap -> outcome R * heap.

Definition ret {R : Type} (r : R) : M R := fun h => (Ok r, h).
Definition raise {R : Type} (e : exn) : M R := fun h => (Raise e, h).
Definition bind {R S : Type} (m : M R) (k : R -> M S) : M S :=
  fun h =>
    match m h with
    | (Ok r, h') => k r h'
    | (Raise e, h') => (Raise e, h')
    end.

Notation "x <- m ;; k" := (bind m (fun x => k))
  (at level 100, m at next level, right associativity).
Notation "m ;;; k" := (bind m (fun _ => k))
  (at level 100, right associativity).

(** [QPolygonF(size)]: a new polygon of [size] points, all at (0, 0). *)
Definition QPolygonF (size : Z) : M ref :=
  fun h =>
    let points :=
      if (size <? 0)%Z then QPolygonF_negative size else Some (Z.to_nat size) in
    match points with
    | None => (Raise (QPolygonF_refused size), h)
    | Some n => (Ok (length h), h ++ [replicate (2 * n) zero])
    end.

(** [polyline.size()], the number of points. *)
Definition polygon_size (polyline : ref) : M nat :=
  fun h => (Ok (length (default [] (h !! polyline)) `div` 2), h).

(** A one-dimensional float64 array that views the storage of a polygon. *)
Record ndarray : Type := { base : ref; offsets : list nat }.

(** [pointer = polyline.data(); pointer.setsize(2*polyline.size()*itemsize);
    memory = np.frombuffer(pointer, dtype)] *)
Definition frombuffer (polyline : ref) : M ndarray :=
  n <- polygon_size polyline ;;
  ret {| base := polyline; offsets := seq 0 (2 * n) |}.

(** [a[start:stop:step]] is a view of the same storage. *)
Definition getslice (a : ndarray) (start stop : option Z) (step : nat) : ndarray :=
  {| base := base a; offsets := py_slice (offsets a) start stop step |}.

(** Store [vs] at the offsets [os], pairwise. *)
Fixpoint scatter (buf : list A) (os : list nat) (vs : list A) : list A :=
  match os, vs with
  | o :: os', v :: vs' => scatter (<[o := v]> buf) os' vs'
  | _, _ => buf
  end.

(** numpy broadcasting of a 1-d source to a 1-d destination of [n] items. *)
Definition broadcast (src : list A) (n : nat) : outcome (list A) :=
  if length src =? n then Ok src
  else match src with
       | [v] => Ok (replicate n v)
       | _ => Raise (ValueError_broadcast (length src) n)
       end.

(** [a[...] = src] *)
Definition setitem (a : ndarray) (src : list A) : M unit :=
  fun h =>
    match broadcast src (length (offsets a)) with
    | Raise e => (Raise e, h)
    | Ok vs => (Ok tt, alter (fun buf => scatter buf (offsets a) vs) (base a) h)
    end.

(** *** qc/dataproc.py *)

Definition to_polyline (xbar ybar : list A) : M ref :=
  let nx := Z.of_nat (length xbar) in
  if negb (nx =? Z.of_nat (length ybar))%Z then raise ValueError_same_len
  else
    polyline <- QPolygonF nx ;;
    memory <- frombuffer polyline ;;
    setitem (getslice memory None (Some ((nx - 1) * 2 + 1)%Z) 2) xbar ;;;
    setitem (getslice memory (Some 1%Z) (Some ((nx - 1) * 2 + 2)%Z) 2) ybar ;;;
    ret polyline.

(** *** qc/experiments/plotpyex.py: converters *)

Definition series_to_polyline (xdata ydata : list A) : M ref :=
  let size := Z.of_nat (length xdata) in
  polyline <- QPolygonF size ;;
  memory <- frombuffer polyline ;;
  setitem (getslice memory None (Some ((size - 1) * 2 + 1)%Z) 2) xdata ;;;
  setitem (getslice memory (Some 1%Z) (Some ((size - 1) * 2 + 2)%Z) 2) ydata ;;;
  ret polyline.

Definition series_to_polystep (xdata ydata : list A) : M ref :=
  let nx := Z.of_nat (length xdata) in
  let size := (2 * nx - 1)%Z in
  polyline <- QPolygonF size ;;
  memory <- frombuffer polyline ;;
  let xs := getslice memory None (Some ((size - 1) * 2 + 1)%Z) 2 in
  let ys := getslice memory (Some 1%Z) (Some ((size - 1) * 2 + 2)%Z) 2 in
  setitem (getslice xs None None 2) xdata ;;;
  setitem (getslice ys None None 2) ydata ;;;
  setitem (getslice xs (Some 1%Z) None 2) (py_slice xdata (Some 1%Z) None 1) ;;;
  setitem (getslice ys (Some 1%Z) None 2) (py_slice ydata None (Some (-1)%Z) 1) ;;;
  ret polyline.

(** Point [i] of a polygon, read back from its storage. *)
Definition point (buf : list A) (i : nat) : option (A * A) :=
  match buf !! (2 * i), buf !! (2 * i + 1) with
  | Some x, Some y => Some (x, y)
  | _, _ => None
  end.

(** *** qc/experiments/plotpyex.py: TestChart *)

(** Remaining toolkit parameters. [QChart_createDefaultAxes] gives the axes
    the toolkit builds for the attached series ([None]: it builds none);
    [QChart_scroll dx dy] is the effect of [QChart.scroll(dx, dy)] on the axis
    ranges; the three [QChartView_*] functions are the base-class handlers
    reached through [super()], which see the event and the rubber-band mode
    and may move the axis ranges. None of them adds or removes an axis. *)
Variable QChart_createDefaultAxes : list (list A) -> option Ranges.
Variable QChart_scroll : Z -> Z -> Ranges -> Ranges.
Variable QChartView_mousePressEvent : QMouseEvent -> RubberBand -> Ranges -> Ranges.
Variable QChartView_mouseReleaseEvent : QMouseEvent -> RubberBand -> Ranges -> Ranges.
Variable QChartView_mouseMoveEvent : QMouseEvent -> RubberBand -> Ranges -> Ranges.

Record TestChart : Type := {
  series : list (list A);        (* point buffers of the attached series *)
  axes : option Ranges;          (* (axisX(), axisY()); None before any exist *)
  _x_min : option float;
  _x_max : option float;
  _y_min : option float;
  _y_max : option float
}.

Definition TestChart_init : TestChart :=
  {| series := []; axes := None;
     _x_min := None; _x_max := None; _y_min := None; _y_max := None |}.

Definition set_axes (a : option Ranges) (self : TestChart) : TestChart :=
  {| series := series self; axes := a;
     _x_min := _x_min self; _x_max := _x_max self;
     _y_min := _y_min self; _y_max := _y_max self |}.

Definition addSeries (curve : list A) (self : TestChart) : TestChart :=
  {| series := series self ++ [curve]; axes := axes self;
     _x_min := _x_min self; _x_max := _x_max self;
     _y_min := _y_min self; _y_max := _y_max self |}.

(** The grid and pen colours set in the loop are not part of the state. *)
Definition createDefaultAxes (self : TestChart) : outcome TestChart :=
  match QChart_createDefaultAxes (series self) with
  | None => Raise AttributeError
  | Some (axis_x, axis_y) =>
      Ok {| series := series self; axes := Some (axis_x, axis_y);
            _x_min := Some (axis_min axis_x); _x_max := Some (axis_max axis_x);
            _y_min := Some (axis_min axis_y); _y_max := Some (axis_max axis_y) |}
  end.

(** [axis.setRange(lo, hi)] with attributes that may still be [None]. *)
Definition setRange_attr (lo hi : option float) (axis : QValueAxis)
  : outcome QValueAxis :=
  match lo, hi with
  | Some lo, Some hi => Ok (setRange lo hi axis)
  | _, _ => Raise TypeError
  end.

(** Lines 158-164: put both axes back to the recorded ranges. *)
Definition reset_axes (chart : TestChart) : outcome TestChart :=
  match axes chart with
  | None => Raise AttributeError
  | Some (axisX, axisY) =>
      match setRange_attr (_x_min chart) (_x_max chart) axisX with
      | Raise e => Raise e
      | Ok axisX' =>
          match setRange_attr (_y_min chart) (_y_max chart) axisY with
          | Raise e => Raise e
          | Ok axisY' => Ok (set_axes (Some (axisX', axisY')) chart)
          end
      end
  end.

(** *** qc/experiments/plotpyex.py: TestChartView *)

Record TestChartView : Type := {
  chart : TestChart;
  _mouse_tracker : MouseTracker.t;
  rubberBand : RubberBand;
  _rubber_band_active : bool;
  _pan_active : bool;
  _zoom_active : bool
}.

Definition TestChartView_init (chart : TestChart) : TestChartView :=
  {| chart := chart; _mouse_tracker := MouseTracker.init;
     rubberBand := NoRubberBand; _rubber_band_active := false;
     _pan_active := false; _zoom_active := false |}.

Definition _disable_rubber_band (self : TestChartView) : TestChartView :=
  {| chart := chart self; _mouse_tracker := _mouse_tracker self;
     rubberBand := NoRubberBand; _rubber_band_active := false;
     _pan_active := _pan_active self; _zoom_active := _zoom_active self |}.

Definition _enable_rubber_band (self : TestChartView) : TestChartView :=
  {| chart := chart self; _mouse_tracker := _mouse_tracker self;
     rubberBand := RectangleRubberBand; _rubber_band_active := true;
     _pan_active := _pan_active self; _zoom_active := _zoom_active self |}.

Definition set_chart (c : TestChart) (self : TestChartView) : TestChartView :=
  {| chart := c; _mouse_tracker := _mouse_tracker self;
     rubberBand := rubberBand self;
     _rubber_band_active := _rubber_band_active self;
     _pan_active := _pan_active self; _zoom_active := _zoom_active self |}.

Definition set_mouse_tracker (t : MouseTracker.t) (self : TestChartView)
  : TestChartView :=
  {| chart := chart self; _mouse_tracker := t;
     rubberBand := rubberBand self;
     _rubber_band_active := _rubber_band_active self;
     _pan_active := _pan_active self; _zoom_active := _zoom_active self |}.

Definition set_pan_active (b : bool) (self : TestChartView) : TestChartView :=
  {| chart := chart self; _mouse_tracker := _mouse_tracker self;
     rubberBand := rubberBand self;
     _rubber_band_active := _rubber_band_active self;
     _pan_active := b; _zoom_active := _zoom_active self |}.

Definition set_zoom_active (b : bool) (self : TestChartView) : TestChartView :=
  {| chart := chart self; _mouse_tracker := _mouse_tracker self;
     rubberBand := rubberBand self;
     _rubber_band_active := _rubber_band_active self;
     _pan_active := _pan_active self; _zoom_active := b |}.

(** A base-class handler, run on the view. *)
Definition super
    (handler : QMouseEvent -> RubberBand -> Ranges -> Ranges)
    (event : QMouseEvent) (self : TestChartView) : TestChartView :=
  set_chart
    (set_axes (handler event (rubberBand self) <$> axes (chart self))
       (chart self))
    self.

Definition mousePressEvent (event : QMouseEvent) (self : TestChartView)
  : TestChartView :=
  let self :=
    match button event with
    | LeftButton =>
        if (modifiers event =? ShiftModifier)%Z then _enable_rubber_band self
        else
          set_pan_active true
            (set_mouse_tracker (MouseTracker.start event (_mouse_tracker self))
               self)
    | RightButton =>
        set_zoom_active true
          (set_mouse_tracker (MouseTracker.start event (_mouse_tracker self))
             self)
    | _ => self
    end in
  super QChartView_mousePressEvent event self.

Definition mouseReleaseEvent (event : QMouseEvent) (self : TestChartView)
  : outcome TestChartView :=
  let reset :=
    match button event with
    | MiddleButton =>
        match reset_axes (chart self) with
        | Raise e => Raise e
        | Ok chart => Ok (set_chart chart self)
        end
    | _ => Ok self
    end in
  match reset with
  | Raise e => Raise e
  | Ok self =>
      let self := super QChartView_mouseReleaseEvent event self in
      let self :=
        if _rubber_band_active self then _disable_rubber_band self else self in
      Ok (set_zoom_active false (set_pan_active false self))
  end.

(** [np.sign(delta) * min(abs(delta), 10)] *)
Definition clamp_delta (delta : Z) : Z :=
  (Z.sgn delta * Z.min (Z.abs delta) 10)%Z.

(** The literal [0.01] of line 185: the double nearest to 1/100. *)
Definition hundredth : float := 0x1.47ae147ae147bp-7%float.

(** One turn of the loop of lines 182-187, in the doubles the code computes
    with: [(tf - t0) * delta * 0.01] is two rounded products of a rounded
    difference, and each end is a rounded sum or difference. *)
Definition zoom_axis (delta : Z) (axis : QValueAxis) : QValueAxis :=
  let t0 := axis_min axis in
  let tf := axis_max axis in
  let delta := clamp_delta delta in
  let shift := ((tf - t0) * float_of_int delta * hundredth)%float in
  let axis := setMin (t0 + shift)%float axis in
  setMax (tf - shift)%float axis.

Definition mouseMoveEvent (event : QMouseEvent) (self : TestChartView)
  : outcome TestChartView :=
  let handled :=
    if _pan_active self then
      match MouseTracker.track event (_mouse_tracker self) with
      | Raise e => Raise e
      | Ok (tracker, (dx, dy)) =>
          let self := set_mouse_tracker tracker self in
          Ok (set_chart
                (set_axes (QChart_scroll (- dx) dy <$> axes (chart self))
                   (chart self))
                self)
      end
    else if _zoom_active self then
      match MouseTracker.track event (_mouse_tracker self) with
      | Raise e => Raise e
      | Ok (tracker, (dx, dy)) =>
          let self := set_mouse_tracker tracker self in
          match axes (chart self) with
          | None => Raise AttributeError
          | Some (axisX, axisY) =>
              Ok (set_chart
                    (set_axes
                       (Some (zoom_axis dx axisX, zoom_axis (- dy) axisY))
                       (chart self))
                    self)
          end
      end
    else Ok self in
  match handled with
  | Raise e => Raise e
  | Ok self => Ok (super QChartView_mouseMoveEvent event self)
  end.

(** The event loop delivers presses, releases and moves to the view. *)
Inductive MouseAction : Type :=
| Press (event : QMouseEvent)
| Release (event : QMouseEvent)
| Move (event : QMouseEvent).

Definition deliver (a : MouseAction) (self : TestChartView)
  : outcome TestChartView :=
  match a with
  | Press event => Ok (mousePressEvent event self)
  | Release event => mouseReleaseEvent event self
  | Move event => mouseMoveEvent event self
  end.

Fixpoint deliver_all (actions : list MouseAction) (self : TestChartView)
  : outcome TestChartView :=
  match actions with
  | [] => Ok self
  | a :: actions =>
      match deliver a self with
      | Raise e => Raise e
      | Ok self => deliver_all actions self
      end
  end.

(** *** qc/experiments/plotpyex.py: TestWindow *)

Record TestWindow : Type := { ncurves : Z; view : TestChartView }.

Definition TestWindow_init : TestWindow :=
  {| ncurves := 0; view := TestChartView_init TestChart_init |}.

Definition lift {R : Type} (o : outcome R) : M R := fun h => (o, h).

(** The points a series takes over from a polygon. *)
Definition points_of (polyline : ref) : M (list A) :=
  fun h => (Ok (default [] (h !! polyline)), h).

(** Colour and the OpenGL flag of a series are not part of the state. *)
Definition add_data (xdata ydata : list A) (self : TestWindow) : M TestWindow :=
  polyline <- series_to_polystep xdata ydata ;;
  curve <- points_of polyline ;;
  let chart := addSeries curve (chart (view self)) in
  chart <- lift (createDefaultAxes chart) ;;
  ret {| ncurves := ncurves self + 1; view := set_chart chart (view self) |}.

Definition add_scatter (xdata ydata : list A) (self : TestWindow) : M TestWindow :=
  polyline <- series_to_polyline xdata ydata ;;
  curve <- points_of polyline ;;
  let chart := addSeries curve (chart (view self)) in
  chart <- lift (createDefaultAxes chart) ;;
  ret {| ncurves := ncurves self + 1; view := set_chart chart (view self) |}.

(** ** Definitions used in the statements *)

(** The offsets [a, a+d, ..., a+(m-1)d]. *)
Definition arith (a d m : nat) : list nat := (fun k => a + d * k) <$> seq 0 m.

(** The two polyline stores, as both [to_polyline] (after its guard) and
    [series_to_polyline] run them. *)
Definition polyline_buffer (xdata ys : list A) : list A :=
  scatter
    (scatter (replicate (2 * length xdata) zero) (arith 0 2 (length xdata)) xdata)
    (arith 1 2 (length xdata)) ys.

(** A series of [track] calls, with the deltas they return. *)
Fixpoint track_all (events : list QMouseEvent) (self : MouseTracker.t)
  : outcome (MouseTracker.t * list (Z * Z)) :=
  match events with
  | [] => Ok (self, [])
  | event :: events =>
      match MouseTracker.track event self with
      | Raise e => Raise e
      | Ok (self, d) =>
          match track_all events self with
          | Raise e => Raise e
          | Ok (self, ds) => Ok (self, d :: ds)
          end
      end
  end.

Definition sum_deltas (ds : list (Z * Z)) : Z * Z :=
  foldr (fun d acc => (d.1 + acc.1, d.2 + acc.2)%Z) (0, 0)%Z ds.

(** The chart has its axes, and its four attributes hold the ends of [r]. *)
Definition recorded (r : Ranges) (chart : TestChart) : Prop :=
  is_Some (axes chart)
  ∧ _x_min chart = Some (axis_min r.1) ∧ _x_max chart = Some (axis_max r.1)
  ∧ _y_min chart = Some (axis_min r.2) ∧ _y_max chart = Some (axis_max r.2).


(** Whenever a drag flag is set, the tracker has a position to measure from. *)
Definition tracker_ready (self : TestChartView) : Prop :=
  _pan_active self = true ∨ _zoom_active self = true →
  is_Some (MouseTracker._x (_mouse_tracker self))
  ∧ is_Some (MouseTracker._y (_mouse_tracker self)).

(** The view's own flag agrees with the rubber-band mode set on the widget. *)
Definition band_consistent (self : TestChartView) : Prop :=
  _rubber_band_active self = true ↔ rubberBand self = RectangleRubberBand.

(** The scrolls of a pan, one [chart.scroll(-dx, dy)] per tracked delta. *)
Definition scroll_all (ds : list (Z * Z)) (r : Ranges) : Ranges :=
  foldl (fun r d => QChart_scroll (- d.1) d.2 r) r ds.

(** Calls of the two public methods that add a curve to a window. *)
Inductive Add : Type :=
| AddData (xdata ydata : list A)
| AddScatter (xdata ydata : list A).

Definition add (a : Add) (self : TestWindow) : M TestWindow :=
  match a with
  | AddData xdata ydata => add_data xdata ydata self
  | AddScatter xdata ydata => add_scatter xdata ydata self
  end.

Fixpoint add_all (adds : list Add) (self : TestWindow) : M TestWindow :=
  match adds with
  | [] => ret self
  | a :: adds => self <- add a self ;; add_all adds self
  end.

(** Two charts with the same series and recorded attributes, and axes
    present in both or in neither. *)
Definition same_attributes (c c' : TestChart) : Prop :=
  series c' = series c
  ∧ _x_min c' = _x_min c ∧ _x_max c' = _x_max c
  ∧ _y_min c' = _y_min c ∧ _y_max c' = _y_max c
  ∧ (is_Some (axes c') ↔ is_Some (axes c)).


(** ** Slices and strided stores *)

Lemma arith_lookup a d m k :
  arith a d m !! k = if decide (k < m) then Some (a + d * k) else None.
Proof.
  unfold arith. rewrite list_lookup_fmap.
  case_decide as Hk.
  - by rewrite lookup_seq_lt.
  - rewrite lookup_seq_ge; [done | lia].
Qed.

Lemma arith_length a d m : length (arith a d m) = m.
Proof. unfold arith. by rewrite length_fmap, length_seq. Qed.

Lemma arith_elem a d m j : j ∈ arith a d m ↔ ∃ k, k < m ∧ j = a + d * k.
Proof.
  unfold arith. rewrite list_elem_of_fmap. split.
  - intros (k & -> & Hk). apply elem_of_seq in Hk. exists k. lia.
  - intros (k & Hk & ->). exists k. split; [done |]. apply elem_of_seq. lia.
Qed.

Lemma arith_NoDup a d m : 0 < d → NoDup (arith a d m).
Proof.
  intros Hd. unfold arith. apply NoDup_fmap_2_strong; [| apply NoDup_seq].
  intros k1 k2 _ _ Heq. nia.
Qed.

Lemma arith_ext a a' d d' m m' :
  a = a' → d = d' → m = m' → arith a d m = arith a' d' m'.
Proof. by intros -> -> ->. Qed.

Lemma half_eq n m : 2 * m ≤ n → n < 2 * m + 2 → n `div` 2 = m.
Proof.
  intros Hlo Hhi. symmetry. apply (Nat.div_unique n 2 m (n - 2 * m)); lia.
Qed.

Lemma half_double n : (2 * n) `div` 2 = n.
Proof. apply half_eq; lia. Qed.

Lemma seq_arith m : seq 0 m = arith 0 1 m.
Proof.
  apply list_eq. intros i. rewrite arith_lookup.
  case_decide.
  - rewrite lookup_seq_lt by done. f_equal. lia.
  - rewrite lookup_seq_ge; [done | lia].
Qed.

Lemma every_lookup {B : Type} (step : nat) (l : list B) :
  0 < step → ∀ skip k, every step skip l !! k = l !! (skip + k * step).
Proof.
  intros Hstep. induction l as [| b l IH]; intros skip k; simpl.
  - by rewrite !lookup_nil.
  - destruct skip as [| s].
    + destruct k as [| k]; simpl; [done |].
      rewrite IH. replace (step + k * step) with (S (step - 1 + k * step)) by lia.
      done.
    + rewrite IH. done.
Qed.

Lemma every_1 {B : Type} (l : list B) : every 1 0 l = l.
Proof.
  apply list_eq. intros i. rewrite every_lookup by lia. f_equal. lia.
Qed.

(** A step-2 slice of an arithmetic progression is one again. *)
Lemma py_slice_arith2 a d m start stop :
  let s := adjust (Z.of_nat m) 0 start in
  let e := adjust (Z.of_nat m) (Z.of_nat m) stop in
  py_slice (arith a d m) start stop 2
  = arith (a + d * s) (2 * d) ((e - s + 1) `div` 2).
Proof.
  intros s e. unfold py_slice. rewrite arith_length. fold s e.
  assert (He : e ≤ m).
  { subst e. unfold adjust. destruct stop as [i |]; [| lia].
    destruct (i <? 0)%Z; lia. }
  apply list_eq. intros i.
  rewrite every_lookup by lia. rewrite lookup_drop, arith_lookup.
  destruct (decide (s + (0 + i * 2) < e)) as [Hin | Hout].
  - rewrite lookup_take_lt by lia. rewrite arith_lookup.
    rewrite decide_True by lia.
    rewrite decide_True.
    + f_equal. lia.
    + apply Nat.div_le_lower_bound; lia.
  - rewrite lookup_take_ge by lia.
    rewrite decide_False; [done |].
    intros Hlt. apply Hout.
    assert (2 * (i + 1) ≤ e - s + 1); [| lia].
    pose proof (Nat.div_mod_eq (e - s + 1) 2).
    pose proof (Nat.mod_upper_bound (e - s + 1) 2). lia.
Qed.

Implicit Types (buf vs : list A) (os : list nat).

Lemma scatter_length buf os vs : length (scatter buf os vs) = length buf.
Proof.
  revert buf vs. induction os as [| o os IH]; intros buf [| v vs]; simpl; try done.
  by rewrite IH, length_insert.
Qed.

Lemma scatter_lookup_ne buf os vs j :
  j ∉ os → scatter buf os vs !! j = buf !! j.
Proof.
  revert buf vs. induction os as [| o os IH]; intros buf [| v vs] Hj; simpl; try done.
  apply not_elem_of_cons in Hj as [Hne Hj].
  rewrite IH by done. by rewrite list_lookup_insert_ne.
Qed.

Lemma scatter_lookup_eq buf os vs k o :
  NoDup os → length os = length vs → os !! k = Some o → o < length buf →
  scatter buf os vs !! o = vs !! k.
Proof.
  revert buf vs k.
  induction os as [| o0 os IH]; intros buf [| v vs] k Hnd Hlen Hk Ho;
    simpl in *; try done.
  apply NoDup_cons in Hnd as [Hnotin Hnd].
  destruct k as [| k]; simpl in *.
  - injection Hk as ->. rewrite scatter_lookup_ne by done.
    by rewrite list_lookup_insert_eq.
  - apply IH; try done; [lia |]. by rewrite length_insert.
Qed.

(** Stores through a progression of offsets, read back. *)
Lemma scatter_arith_eq buf a d m vs k :
  0 < d → length vs = m → k < m → a + d * k < length buf →
  scatter buf (arith a d m) vs !! (a + d * k) = vs !! k.
Proof.
  intros Hd Hlen Hk Hin.
  apply scatter_lookup_eq; [by apply arith_NoDup | by rewrite arith_length | | done].
  rewrite arith_lookup. by rewrite decide_True.
Qed.

Lemma scatter_arith_ne buf a d m vs j :
  (∀ k, k < m → j ≠ a + d * k) →
  scatter buf (arith a d m) vs !! j = buf !! j.
Proof.
  intros Hj. apply scatter_lookup_ne. rewrite arith_elem.
  intros (k & Hk & ->). by apply (Hj k).
Qed.

(** A store that misses the offset read afterwards. *)
Ltac skip_store := rewrite scatter_arith_ne by (intros; lia).

(** ** Running the converters *)

Lemma adjust_None len dflt : adjust len dflt None = Z.to_nat dflt.
Proof. done. Qed.

Lemma adjust_Some_nonneg len dflt i :
  (0 ≤ i)%Z → adjust len dflt (Some i) = Z.to_nat (Z.min i len).
Proof.
  intros Hi. unfold adjust. destruct (Z.ltb_spec i 0); lia.
Qed.

Lemma adjust_Some_neg len dflt i :
  (i < 0)%Z → adjust len dflt (Some i) = Z.to_nat (i + len).
Proof.
  intros Hi. unfold adjust. destruct (Z.ltb_spec i 0); lia.
Qed.

(** [memory[:(p-1)*2+1:2]] addresses the x coordinates of a polygon of [p]
    points, [memory[1:(p-1)*2+2:2]] its y coordinates. *)
Lemma xs_offsets p :
  py_slice (seq 0 (2 * p)) None (Some ((Z.of_nat p - 1) * 2 + 1)%Z) 2
  = arith 0 2 p.
Proof.
  rewrite seq_arith, py_slice_arith2, adjust_None.
  destruct p as [| p]; [done |].
  rewrite adjust_Some_nonneg by lia.
  apply arith_ext; [lia | lia | apply half_eq; lia].
Qed.

Lemma ys_offsets p :
  py_slice (seq 0 (2 * p)) (Some 1%Z) (Some ((Z.of_nat p - 1) * 2 + 2)%Z) 2
  = arith 1 2 p.
Proof.
  rewrite seq_arith, py_slice_arith2.
  destruct p as [| p]; [done |].
  rewrite !adjust_Some_nonneg by lia.
  apply arith_ext; [lia | lia | apply half_eq; lia].
Qed.

Lemma QPolygonF_run (p : nat) (h : heap) :
  QPolygonF (Z.of_nat p) h = (Ok (length h), h ++ [replicate (2 * p) zero]).
Proof.
  unfold QPolygonF. destruct (Z.ltb_spec (Z.of_nat p) 0); [lia |].
  by rewrite Nat2Z.id.
Qed.

Lemma polygon_size_run (h : heap) (buf : list A) :
  polygon_size (length h) (h ++ [buf]) = (Ok (length buf `div` 2), h ++ [buf]).
Proof. unfold polygon_size. by rewrite list_lookup_middle. Qed.

Lemma frombuffer_run (h : heap) (buf : list A) :
  frombuffer (length h) (h ++ [buf])
  = (Ok {| base := length h; offsets := seq 0 (2 * (length buf `div` 2)) |},
     h ++ [buf]).
Proof.
  unfold frombuffer, bind, polygon_size, ret.
  by rewrite list_lookup_middle.
Qed.

Lemma setitem_run (h : heap) (buf : list A) os src :
  setitem {| base := length h; offsets := os |} src (h ++ [buf])
  = match broadcast src (length os) with
    | Ok vs => (Ok tt, h ++ [scatter buf os vs])
    | Raise e => (Raise e, h ++ [buf])
    end.
Proof.
  unfold setitem. simpl. destruct (broadcast src (length os)); [| done].
  f_equal. replace (length h) with (length h + 0) at 1 by lia.
  by rewrite alter_app_r.
Qed.

Lemma broadcast_same vs n : length vs = n → broadcast vs n = Ok vs.
Proof. intros <-. unfold broadcast. by rewrite Nat.eqb_refl. Qed.

Lemma broadcast_length src n vs : broadcast src n = Ok vs → length vs = n.
Proof.
  unfold broadcast. destruct (Nat.eqb_spec (length src) n) as [Heq | Hne].
  - by intros [= <-].
  - destruct src as [| v [| ? ?]]; try done.
    intros [= <-]. by rewrite length_replicate.
Qed.


Lemma py_slice_from_1 {B : Type} (l : list B) :
  py_slice l (Some 1%Z) None 1 = drop 1 l.
Proof.
  unfold py_slice. rewrite every_1, adjust_None, Nat2Z.id, firstn_all.
  rewrite adjust_Some_nonneg by lia.
  destruct l as [| b l]; [done |]. f_equal. simpl length. lia.
Qed.

Lemma py_slice_to_minus_1 {B : Type} (l : list B) :
  py_slice l None (Some (-1)%Z) 1 = take (length l - 1) l.
Proof.
  unfold py_slice. rewrite every_1, adjust_None, adjust_Some_neg by lia.
  change (Z.to_nat 0) with 0. rewrite drop_0. f_equal. lia.
Qed.

(** The slices of slices in [series_to_polystep], for a polygon of [2n-1]
    points. *)
Lemma even_of a n :
  1 ≤ n → py_slice (arith a 2 (2 * n - 1)) None None 2 = arith a 4 n.
Proof.
  intros Hn. rewrite py_slice_arith2, !adjust_None.
  apply arith_ext; [lia | lia | apply half_eq; lia].
Qed.

Lemma odd_of a n :
  1 ≤ n →
  py_slice (arith a 2 (2 * n - 1)) (Some 1%Z) None 2 = arith (a + 2) 4 (n - 1).
Proof.
  intros Hn. rewrite py_slice_arith2, !adjust_None.
  rewrite adjust_Some_nonneg by lia.
  apply arith_ext; [lia | lia | apply half_eq; lia].
Qed.

Lemma series_to_polyline_run xdata ydata (h : heap) :
  series_to_polyline xdata ydata h
  = match broadcast ydata (length xdata) with
    | Ok ys => (Ok (length h), h ++ [polyline_buffer xdata ys])
    | Raise e =>
        (Raise e,
         h ++ [scatter (replicate (2 * length xdata) zero)
                 (arith 0 2 (length xdata)) xdata])
    end.
Proof.
  unfold series_to_polyline, bind. rewrite QPolygonF_run, frombuffer_run.
  rewrite length_replicate, half_double.
  unfold getslice; cbn [base offsets].
  rewrite xs_offsets, ys_offsets.
  rewrite setitem_run, arith_length, broadcast_same by done.
  rewrite setitem_run, arith_length.
  by destruct (broadcast ydata (length xdata)).
Qed.

Lemma to_polyline_run xbar ybar (h : heap) :
  to_polyline xbar ybar h
  = if decide (length xbar = length ybar)
    then (Ok (length h), h ++ [polyline_buffer xbar ybar])
    else (Raise ValueError_same_len, h).
Proof.
  unfold to_polyline.
  destruct (Z.eqb_spec (Z.of_nat (length xbar)) (Z.of_nat (length ybar)))
    as [Heq | Hne]; cbn [negb].
  - rewrite decide_True by lia.
    transitivity (series_to_polyline xbar ybar h); [done |].
    by rewrite series_to_polyline_run, broadcast_same by lia.
  - by rewrite decide_False by lia.
Qed.

Lemma polyline_buffer_length xdata ys :
  length (polyline_buffer xdata ys) = 2 * length xdata.
Proof.
  unfold polyline_buffer. by rewrite !scatter_length, length_replicate.
Qed.

Lemma polyline_buffer_x xdata ys k :
  k < length xdata → polyline_buffer xdata ys !! (2 * k) = xdata !! k.
Proof.
  intros Hk. unfold polyline_buffer.
  rewrite scatter_arith_ne by (intros; lia).
  apply (scatter_arith_eq _ 0 2); try done; try lia.
  rewrite length_replicate. lia.
Qed.

Lemma polyline_buffer_y xdata ys k :
  length ys = length xdata → k < length xdata →
  polyline_buffer xdata ys !! (2 * k + 1) = ys !! k.
Proof.
  intros Hlen Hk. unfold polyline_buffer.
  replace (2 * k + 1) with (1 + 2 * k) by lia.
  apply scatter_arith_eq; try done; try lia.
  rewrite scatter_length, length_replicate. lia.
Qed.

(** The four stores of [series_to_polystep] on [n >= 1] samples. *)
Lemma series_to_polystep_run xdata ydata (h : heap) :
  let n := length xdata in
  let b0 := replicate (2 * (2 * n - 1)) zero in
  let b1 := scatter b0 (arith 0 4 n) xdata in
  1 ≤ n →
  series_to_polystep xdata ydata h
  = match broadcast ydata n with
    | Raise e => (Raise e, h ++ [b1])
    | Ok ys =>
        let b2 := scatter b1 (arith 1 4 n) ys in
        let b3 := scatter b2 (arith 2 4 (n - 1)) (drop 1 xdata) in
        match broadcast (take (length ydata - 1) ydata) (n - 1) with
        | Raise e => (Raise e, h ++ [b3])
        | Ok ys' => (Ok (length h), h ++ [scatter b3 (arith 3 4 (n - 1)) ys'])
        end
    end.
Proof.
  intros n b0 b1 Hn. subst b1 b0. unfold series_to_polystep, bind. fold n.
  replace (2 * Z.of_nat n - 1)%Z with (Z.of_nat (2 * n - 1)) by lia.
  rewrite QPolygonF_run, frombuffer_run.
  rewrite length_replicate, half_double.
  unfold getslice; cbn [base offsets].
  rewrite xs_offsets, ys_offsets.
  rewrite !even_of, !odd_of by done.
  rewrite py_slice_from_1, py_slice_to_minus_1.
  rewrite setitem_run, arith_length, broadcast_same by done.
  rewrite setitem_run, arith_length.
  destruct (broadcast ydata n) as [ys | e]; [| done].
  rewrite setitem_run, arith_length, broadcast_same
    by (rewrite length_drop; fold n; lia).
  rewrite setitem_run, arith_length.
  by destruct (broadcast (take (length ydata - 1) ydata) (n - 1)).
Qed.

Lemma polystep_buffer_lookups (xdata ydata : list A) :
  let n := length xdata in
  let buf :=
    scatter
      (scatter
         (scatter
            (scatter (replicate (2 * (2 * n - 1)) zero) (arith 0 4 n) xdata)
            (arith 1 4 n) ydata)
         (arith 2 4 (n - 1)) (drop 1 xdata))
      (arith 3 4 (n - 1)) (take (length ydata - 1) ydata) in
  length ydata = n →
  length buf = 2 * (2 * n - 1)
  ∧ (∀ k, k < n → buf !! (4 * k) = xdata !! k ∧ buf !! (4 * k + 1) = ydata !! k)
  ∧ (∀ k, k + 1 < n →
       buf !! (4 * k + 2) = xdata !! (k + 1) ∧ buf !! (4 * k + 3) = ydata !! k).
Proof.
  intros n buf Hy. subst buf.
  split; [by rewrite !scatter_length, length_replicate |].
  split; intros k Hk; split.
  - do 3 skip_store. apply (scatter_arith_eq _ 0 4); try done; try lia.
    rewrite length_replicate. lia.
  - do 2 skip_store. replace (4 * k + 1) with (1 + 4 * k) by lia.
    apply scatter_arith_eq; try done; try lia.
    rewrite scatter_length, length_replicate. lia.
  - skip_store. replace (4 * k + 2) with (2 + 4 * k) by lia.
    rewrite scatter_arith_eq; try lia.
    + rewrite lookup_drop. f_equal. lia.
    + rewrite length_drop. fold n. lia.
    + rewrite !scatter_length, length_replicate. lia.
  - replace (4 * k + 3) with (3 + 4 * k) by lia.
    rewrite scatter_arith_eq; try lia.
    + apply lookup_take_lt. lia.
    + rewrite length_take. lia.
    + rewrite !scatter_length, length_replicate. lia.
Qed.

(** ** The converters: results *)

(** C1. On inputs of equal length n, [to_polyline] and [series_to_polyline]
    both return a new polygon of n points; its buffer has 2n entries, the
    even ones are x in order and the odd ones are y in order. *)
Theorem polyline_interleaves (xdata ydata : list A) (h : heap) :
  length xdata = length ydata →
  ∃ buf,
    to_polyline xdata ydata h = (Ok (length h), h ++ [buf])
    ∧ series_to_polyline xdata ydata h = (Ok (length h), h ++ [buf])
    ∧ polygon_size (length h) (h ++ [buf]) = (Ok (length xdata), h ++ [buf])
    ∧ length buf = 2 * length xdata
    ∧ ∀ k, k < length xdata →
        buf !! (2 * k) = xdata !! k ∧ buf !! (2 * k + 1) = ydata !! k.
Proof.
  intros Hlen. exists (polyline_buffer xdata ydata).
  rewrite to_polyline_run, decide_True by done.
  rewrite series_to_polyline_run, broadcast_same by done.
  rewrite polygon_size_run, polyline_buffer_length, half_double.
  repeat split; try done.
  - by apply polyline_buffer_x.
  - by apply polyline_buffer_y.
Qed.

(** C2. On inputs of equal length n >= 1, [series_to_polystep] returns a new
    polygon of 2n-1 points; point 2k is (x_k, y_k) for every k <= n-1 and
    point 2k+1 is (x_(k+1), y_k) for every k <= n-2. *)
Theorem polystep_staircase (xdata ydata : list A) (h : heap) :
  1 ≤ length xdata → length xdata = length ydata →
  ∃ buf,
    series_to_polystep xdata ydata h = (Ok (length h), h ++ [buf])
    ∧ polygon_size (length h) (h ++ [buf])
      = (Ok (2 * length xdata - 1), h ++ [buf])
    ∧ length buf = 2 * (2 * length xdata - 1)
    ∧ (∀ k a b, xdata !! k = Some a → ydata !! k = Some b →
         point buf (2 * k) = Some (a, b))
    ∧ (∀ k a b, xdata !! (k + 1) = Some a → ydata !! k = Some b →
         point buf (2 * k + 1) = Some (a, b)).
Proof.
  intros Hn Hlen.
  rewrite series_to_polystep_run by done. cbv zeta.
  rewrite broadcast_same by done.
  rewrite broadcast_same by (rewrite length_take; lia).
  destruct (polystep_buffer_lookups xdata ydata) as (Hl & Hev & Hod); [done |].
  eexists. split; [done |].
  rewrite polygon_size_run, Hl, half_double. split; [done |]. split; [done |].
  split; intros k a b Ha Hb; unfold point.
  - apply lookup_lt_Some in Ha as Hk.
    replace (2 * (2 * k)) with (4 * k) by lia.
    destruct (Hev k Hk) as [-> ->]. by rewrite Ha, Hb.
  - apply lookup_lt_Some in Ha as Hk.
    replace (2 * (2 * k + 1)) with (4 * k + 2) by lia.
    replace (4 * k + 2 + 1) with (4 * k + 3) by lia.
    destruct (Hod k Hk) as [-> ->]. by rewrite Ha, Hb.
Qed.


(** X2. On at least one sample, every length mismatch stops
    [series_to_polystep] with numpy's broadcast error, and the polygon it had
    built stays behind, partly written. A y of length 1 passes the first
    store of y, spread over all n even points, and fails the second, where
    [ydata[:-1]] is empty and n-1 values are needed; by then x is stored
    twice. Any other y fails the first store of y, after the first store
    of x. *)
Lemma series_to_polystep_mismatch (xdata ydata : list A) (h : heap) :
  1 ≤ length xdata → length ydata ≠ length xdata →
  let n := length xdata in
  let b1 := scatter (replicate (2 * (2 * n - 1)) zero) (arith 0 4 n) xdata in
  series_to_polystep xdata ydata h
  = match ydata with
    | [y0] =>
        (Raise (ValueError_broadcast 0 (n - 1)),
         h ++ [scatter (scatter b1 (arith 1 4 n) (replicate n y0))
                 (arith 2 4 (n - 1)) (drop 1 xdata)])
    | _ => (Raise (ValueError_broadcast (length ydata) n), h ++ [b1])
    end.
Proof.
  intros Hn Hne n b1. rewrite series_to_polystep_run by done. cbv zeta.
  fold n. fold b1. unfold broadcast.
  destruct (Nat.eqb_spec (length ydata) n) as [Heq | _]; [done |].
  destruct ydata as [| y0 [| y1 ydata]]; [done | | done].
  cbn [length take Nat.sub].
  destruct (Nat.eqb_spec 0 (n - 1)) as [Heq | _]; [| done].
  simpl in Hne. lia.
Qed.

(** C4. [to_polyline] raises its ValueError exactly when the lengths differ,
    and then no polygon has been built or written: the heap is as before.
    On equal lengths it returns a new polygon. *)
Theorem to_polyline_guard (xbar ybar : list A) (h : heap) :
  to_polyline xbar ybar h
  = (if decide (length xbar = length ybar)
     then (Ok (length h), h ++ [polyline_buffer xbar ybar])
     else (Raise ValueError_same_len, h))
  ∧ ((∃ e h', to_polyline xbar ybar h = (Raise e, h'))
     ↔ length xbar ≠ length ybar).
Proof.
  rewrite to_polyline_run. split; [done |].
  case_decide as Hlen; split; try done.
  - intros (e & h' & [=]).
  - by eauto.
Qed.

(** On empty inputs [series_to_polystep] asks the toolkit for a polygon of
    2*0 - 1 = -1 points before anything else, and what follows is the
    toolkit's doing. If the constructor answers a negative size with an
    empty polygon, the call returns that empty polygon. *)
Lemma polystep_empty_accepted (h : heap) :
  QPolygonF_negative (-1)%Z = Some 0 →
  series_to_polystep [] [] h = (Ok (length h), h ++ [[]]).
Proof.
  intros Hneg. unfold series_to_polystep, bind, QPolygonF.
  change (2 * Z.of_nat (length []) - 1)%Z with (-1)%Z.
  change (-1 <? 0)%Z with true. cbv iota. rewrite Hneg.
  change (replicate (2 * 0) zero) with (@nil A).
  rewrite frombuffer_run. unfold getslice; cbn [base offsets].
  change (seq 0 (2 * (length (@nil A) `div` 2))) with (@nil nat).
  rewrite setitem_run. simpl. unfold ret.
  by rewrite !list_alter_id.
Qed.

(** ** The mouse tracker *)

Lemma track_all_from (events : list QMouseEvent) :
  ∀ (self : MouseTracker.t) (x y : Z),
    MouseTracker._x self = Some x → MouseTracker._y self = Some y →
    ∃ self' ds,
      track_all events self = Ok (self', ds)
      ∧ length ds = length events
      ∧ sum_deltas ds
        = (from_option event_x x (last events) - x,
           from_option event_y y (last events) - y)%Z
      ∧ MouseTracker.totals self'
        = ((MouseTracker.totals self).1 + (sum_deltas ds).1,
           (MouseTracker.totals self).2 + (sum_deltas ds).2)%Z.
Proof.
  induction events as [| e es IH]; intros self x y Hx Hy.
  - exists self, []. simpl. repeat split; try done.
    + f_equal; lia.
    + destruct self; unfold MouseTracker.totals; simpl. f_equal; lia.
  - simpl. unfold MouseTracker.track at 1. rewrite Hx, Hy.
    set (self1 := MouseTracker.Build_t _ _ _ _).
    destruct (IH self1 (event_x e) (event_y e))
      as (self' & ds & Hrun & Hlen & Hsum & Htot); [done | done |].
    rewrite Hrun. eexists _, _. split; [done |].
    split; [simpl; lia |].
    rewrite last_cons. simpl sum_deltas. rewrite Htot, Hsum. simpl.
    destruct (last es); simpl; split; f_equal; lia.
Qed.

(** C8. After [reset()] and [start(e0)], any series of [track] calls runs
    through, and [totals()] is the displacement from the start position to
    the last tracked position, which is the sum of the returned deltas. *)
Theorem tracker_telescopes (self : MouseTracker.t) (e0 : QMouseEvent)
    (events : list QMouseEvent) :
  ∃ self' ds,
    track_all events (MouseTracker.start e0 (MouseTracker.reset self))
    = Ok (self', ds)
    ∧ length ds = length events
    ∧ MouseTracker.totals self'
      = (event_x (default e0 (last events)) - event_x e0,
         event_y (default e0 (last events)) - event_y e0)%Z
    ∧ MouseTracker.totals self' = sum_deltas ds.
Proof.
  destruct (track_all_from events
              (MouseTracker.start e0 (MouseTracker.reset self))
              (event_x e0) (event_y e0))
    as (self' & ds & Hrun & Hlen & Hsum & Htot); [done | done |].
  exists self', ds. split; [done |]. split; [done |].
  assert (Heq : MouseTracker.totals self' = sum_deltas ds).
  { rewrite Htot. simpl. by destruct (sum_deltas ds). }
  split; [| done].
  rewrite Heq, Hsum. by destruct (last events).
Qed.

(** ** The chart view *)

Lemma createDefaultAxes_recorded (chart chart' : TestChart) :
  createDefaultAxes chart = Ok chart' →
  ∃ r, axes chart' = Some r ∧ recorded r chart'.
Proof.
  unfold createDefaultAxes.
  destruct (QChart_createDefaultAxes (series chart)) as [[ax ay] |]; [| done].
  intros [= <-]. exists (ax, ay). unfold recorded. simpl. eauto 10.
Qed.

Lemma recorded_set_axes r a (chart : TestChart) :
  recorded r chart → recorded r (set_axes (Some a) chart).
Proof. unfold recorded. simpl. intros (_ & ?). eauto. Qed.

Lemma recorded_move_axes r (f : Ranges → Ranges) (chart : TestChart) :
  recorded r chart → recorded r (set_axes (f <$> axes chart) chart).
Proof.
  unfold recorded. simpl. intros ([a ->] & ?). simpl. eauto.
Qed.

Lemma reset_axes_recorded r (chart : TestChart) :
  recorded r chart → reset_axes chart = Ok (set_axes (Some r) chart).
Proof.
  intros ([[ax ay] Hax] & Hx0 & Hx1 & Hy0 & Hy1).
  unfold reset_axes. rewrite Hax, Hx0, Hx1, Hy0, Hy1. simpl.
  by destruct r as [[] []].
Qed.

Lemma mousePressEvent_chart (event : QMouseEvent) (self : TestChartView) :
  chart (mousePressEvent event self)
  = set_axes
      (QChartView_mousePressEvent event (rubberBand (mousePressEvent event self))
         <$> axes (chart self))
      (chart self).
Proof.
  unfold mousePressEvent.
  destruct (button event); try done.
  by destruct (modifiers event =? ShiftModifier)%Z.
Qed.

Lemma mousePressEvent_recorded r event (self : TestChartView) :
  recorded r (chart self) → recorded r (chart (mousePressEvent event self)).
Proof. rewrite mousePressEvent_chart. apply recorded_move_axes. Qed.

(** What [mouseReleaseEvent] does after the reset of the middle button. *)
Lemma release_tail_recorded r event (mid : TestChartView) :
  recorded r (chart mid) →
  recorded r
    (chart
       (set_zoom_active false
          (set_pan_active false
             (if _rubber_band_active (super QChartView_mouseReleaseEvent event mid)
              then _disable_rubber_band
                     (super QChartView_mouseReleaseEvent event mid)
              else super QChartView_mouseReleaseEvent event mid)))).
Proof.
  intros Hrec.
  destruct (_rubber_band_active (super QChartView_mouseReleaseEvent event mid));
    simpl; by apply recorded_move_axes.
Qed.

Lemma mouseReleaseEvent_recorded r event (self self' : TestChartView) :
  mouseReleaseEvent event self = Ok self' →
  recorded r (chart self) → recorded r (chart self').
Proof.
  intros Hrun Hrec. unfold mouseReleaseEvent in Hrun.
  destruct (button event); cbv zeta beta iota in Hrun;
    try (injection Hrun as <-; by apply release_tail_recorded).
  rewrite (reset_axes_recorded r) in Hrun by done.
  injection Hrun as <-.
  apply (release_tail_recorded r event
           (set_chart (set_axes (Some r) (chart self)) self)).
  simpl. by apply recorded_set_axes.
Qed.

Lemma mouseMoveEvent_recorded r event (self self' : TestChartView) :
  mouseMoveEvent event self = Ok self' →
  recorded r (chart self) → recorded r (chart self').
Proof.
  intros Hrun Hrec. unfold mouseMoveEvent in Hrun.
  destruct (_pan_active self).
  - destruct (MouseTracker.track event (_mouse_tracker self))
      as [[tracker [dx dy]] | e]; [| done].
    injection Hrun as <-. simpl.
    apply recorded_move_axes. by apply recorded_move_axes.
  - destruct (_zoom_active self).
    + destruct (MouseTracker.track event (_mouse_tracker self))
        as [[tracker [dx dy]] | e]; [| done].
      simpl in Hrun. destruct (axes (chart self)) as [[ax ay] |]; [| done].
      injection Hrun as <-. simpl.
      apply (recorded_move_axes r _ (set_axes (Some _) (chart self))).
      by apply recorded_set_axes.
    + injection Hrun as <-. simpl. by apply recorded_move_axes.
Qed.

Lemma deliver_all_recorded r actions :
  ∀ self self' : TestChartView,
    deliver_all actions self = Ok self' →
    recorded r (chart self) → recorded r (chart self').
Proof.
  induction actions as [| a actions IH]; intros self self' Hrun Hrec; simpl in Hrun.
  - by injection Hrun as <-.
  - destruct (deliver a self) as [mid | e] eqn:Ha; [| done].
    apply (IH mid); [done |].
    destruct a as [event | event | event]; simpl in Ha.
    + injection Ha as <-. by apply mousePressEvent_recorded.
    + by apply (mouseReleaseEvent_recorded r event self).
    + by apply (mouseMoveEvent_recorded r event self).
Qed.

(** C5. Once [createDefaultAxes] has recorded the ranges, and whatever
    presses, moves and releases were handled since, a middle-button release
    is handled without error and leaves the X axis at (_x_min, _x_max) and the
    Y axis at (_y_min, _y_max), the ranges the axes had when they were
    created. The base-class handler is taken to leave the axes alone on that
    event. *)
Theorem middle_release_restores (chart0 chart1 : TestChart)
    (self self1 : TestChartView) (actions : list MouseAction)
    (event : QMouseEvent) :
  createDefaultAxes chart0 = Ok chart1 →
  chart self = chart1 →
  deliver_all actions self = Ok self1 →
  button event = MiddleButton →
  (∀ rb r, QChartView_mouseReleaseEvent event rb r = r) →
  ∃ self2 axisX axisY,
    mouseReleaseEvent event self1 = Ok self2
    ∧ axes (chart self2) = Some (axisX, axisY)
    ∧ axes (chart self2) = axes chart1
    ∧ _x_min (chart self1) = Some (axis_min axisX)
    ∧ _x_max (chart self1) = Some (axis_max axisX)
    ∧ _y_min (chart self1) = Some (axis_min axisY)
    ∧ _y_max (chart self1) = Some (axis_max axisY).
Proof.
  intros Hcreate Hchart Hrun Hmid Hbase.
  destruct (createDefaultAxes_recorded _ _ Hcreate) as ([ax ay] & Hax & Hrec).
  assert (Hrec1 : recorded (ax, ay) (chart self1)).
  { apply (deliver_all_recorded _ actions self); [done |]. by rewrite Hchart. }
  unfold mouseReleaseEvent. rewrite Hmid.
  rewrite (reset_axes_recorded (ax, ay)) by done.
  eexists _, ax, ay. split; [done |].
  destruct Hrec1 as (_ & ? & ? & ? & ?).
  assert (Hfin : ∀ v : TestChartView,
            axes (chart (set_zoom_active false (set_pan_active false
                    (if _rubber_band_active v then _disable_rubber_band v else v))))
            = axes (chart v)).
  { intros v. by destruct (_rubber_band_active v). }
  rewrite Hfin. simpl. rewrite Hbase, Hax. done.
Qed.




(** C7, amended. A left press whose modifiers are anything but exactly Shift
    activates panning and starts the tracker at the press position; a move
    handled while panning is active scrolls the chart by (-dx, dy), the delta
    since the previous tracked position, and keeps panning active; a left
    press whose modifiers are exactly Shift enables the rectangle rubber band
    and leaves the pan flag and the tracker as they were. *)
Theorem left_press_pans_or_bands :
  (∀ (event : QMouseEvent) (self : TestChartView),
     button event = LeftButton → modifiers event ≠ ShiftModifier →
     let self' := mousePressEvent event self in
     _pan_active self' = true
     ∧ _mouse_tracker self' = MouseTracker.start event (_mouse_tracker self)
     ∧ MouseTracker._x (_mouse_tracker self') = Some (event_x event)
     ∧ MouseTracker._y (_mouse_tracker self') = Some (event_y event)
     ∧ rubberBand self' = rubberBand self
     ∧ _rubber_band_active self' = _rubber_band_active self)
  ∧ (∀ (event : QMouseEvent) (self : TestChartView) (x0 y0 : Z),
       _pan_active self = true →
       MouseTracker._x (_mouse_tracker self) = Some x0 →
       MouseTracker._y (_mouse_tracker self) = Some y0 →
       (∀ rb r, QChartView_mouseMoveEvent event rb r = r) →
       ∃ self',
         mouseMoveEvent event self = Ok self'
         ∧ axes (chart self')
           = QChart_scroll (- (event_x event - x0)) (event_y event - y0)
               <$> axes (chart self)
         ∧ MouseTracker._x (_mouse_tracker self') = Some (event_x event)
         ∧ MouseTracker._y (_mouse_tracker self') = Some (event_y event)
         ∧ _pan_active self' = true)
  ∧ (∀ (event : QMouseEvent) (self : TestChartView),
       button event = LeftButton → modifiers event = ShiftModifier →
       let self' := mousePressEvent event self in
       rubberBand self' = RectangleRubberBand
       ∧ _rubber_band_active self' = true
       ∧ _pan_active self' = _pan_active self
       ∧ _mouse_tracker self' = _mouse_tracker self).
Proof.
  split; [| split].
  - intros event self Hleft Hmod. unfold mousePressEvent. rewrite Hleft.
    destruct (Z.eqb_spec (modifiers event) ShiftModifier); [done |].
    simpl. done.
  - intros event self x0 y0 Hpan Hx Hy Hbase.
    unfold mouseMoveEvent, MouseTracker.track. rewrite Hpan, Hx, Hy.
    eexists. split; [done |]. simpl.
    split; [| done].
    destruct (axes (chart self)) as [r |]; simpl; [| done].
    by rewrite Hbase.
  - intros event self Hleft Hmod. unfold mousePressEvent. rewrite Hleft, Hmod.
    simpl. done.
Qed.

(** [mouseReleaseEvent] is handled without error exactly in the cases of the
    next theorem. *)
Lemma mouseReleaseEvent_Ok_iff (event : QMouseEvent) (self : TestChartView) :
  (∃ self', mouseReleaseEvent event self = Ok self')
  ↔ button event ≠ MiddleButton ∨ (∃ r, recorded r (chart self)).
Proof.
  unfold mouseReleaseEvent. split.
  - intros [self' Hrun].
    destruct (button event) eqn:Hb; try (by left). right.
    unfold reset_axes, setRange_attr in Hrun.
    destruct (axes (chart self)) as [[ax ay] |] eqn:Hax; [| done].
    destruct (_x_min (chart self)) as [x0 |] eqn:Hx0; [| done].
    destruct (_x_max (chart self)) as [x1 |] eqn:Hx1; [| done].
    destruct (_y_min (chart self)) as [y0 |] eqn:Hy0; [| done].
    destruct (_y_max (chart self)) as [y1 |] eqn:Hy1; [| done].
    exists ({| axis_min := x0; axis_max := x1 |},
            {| axis_min := y0; axis_max := y1 |}).
    unfold recorded. rewrite Hax, Hx0, Hx1, Hy0, Hy1. simpl. eauto 10.
  - intros Hok.
    destruct (button event) eqn:Hb; cbv zeta beta iota; try by eexists.
    destruct Hok as [? | [r Hrec]]; [done |].
    rewrite (reset_axes_recorded r) by done. by eexists.
Qed.

(** C9, amended. A release that is handled without error (any button but the
    middle one, or the middle button on a chart that has its axes and its
    recorded ranges) leaves both flags false and the rubber band disabled;
    a move handled after it neither pans nor zooms and only reaches the base
    class. *)
Theorem release_clears_flags (event : QMouseEvent) (self : TestChartView) :
  button event ≠ MiddleButton ∨ (∃ r, recorded r (chart self)) →
  ∃ self',
    mouseReleaseEvent event self = Ok self'
    ∧ _pan_active self' = false
    ∧ _zoom_active self' = false
    ∧ _rubber_band_active self' = false
    ∧ (_rubber_band_active self = true → rubberBand self' = NoRubberBand)
    ∧ ∀ move, mouseMoveEvent move self'
              = Ok (super QChartView_mouseMoveEvent move self').
Proof.
  intros Hok.
  assert (Htail : ∀ mid : TestChartView,
            _rubber_band_active mid = _rubber_band_active self →
            let self' :=
              set_zoom_active false
                (set_pan_active false
                   (if _rubber_band_active
                         (super QChartView_mouseReleaseEvent event mid)
                    then _disable_rubber_band
                           (super QChartView_mouseReleaseEvent event mid)
                    else super QChartView_mouseReleaseEvent event mid)) in
            _pan_active self' = false ∧ _zoom_active self' = false
            ∧ _rubber_band_active self' = false
            ∧ (_rubber_band_active self = true → rubberBand self' = NoRubberBand)
            ∧ ∀ move, mouseMoveEvent move self'
                      = Ok (super QChartView_mouseMoveEvent move self')).
  { intros mid Hsame. simpl. rewrite Hsame.
    destruct (_rubber_band_active self); simpl; repeat split; done. }
  unfold mouseReleaseEvent.
  destruct (button event) eqn:Hb; cbv zeta beta iota;
    try (eexists; split; [done |]; by apply Htail).
  destruct Hok as [? | [r Hrec]]; [done |].
  rewrite (reset_axes_recorded r) by done.
  eexists. split; [done |]. by apply Htail.
Qed.

(** ** Further properties of the converters *)

Lemma broadcast_single (y0 : A) (n : nat) :
  ∃ ys, broadcast [y0] n = Ok ys ∧ ys = replicate n y0.
Proof.
  unfold broadcast. destruct (Nat.eqb_spec (length [y0]) n) as [<- | Hne]; eauto.
Qed.

(** X3. A y of length 1 is spread over all points: [series_to_polyline]
    returns a polygon of len(x) points, point k being (x_k, y_0). *)
Theorem series_to_polyline_single_y (xdata : list A) (y0 : A) (h : heap) :
  ∃ buf,
    series_to_polyline xdata [y0] h = (Ok (length h), h ++ [buf])
    ∧ polygon_size (length h) (h ++ [buf]) = (Ok (length xdata), h ++ [buf])
    ∧ ∀ k a, xdata !! k = Some a → point buf k = Some (a, y0).
Proof.
  rewrite series_to_polyline_run.
  destruct (broadcast_single y0 (length xdata)) as (ys & -> & ->).
  eexists. split; [done |].
  rewrite polygon_size_run, polyline_buffer_length, half_double.
  split; [done |]. intros k a Ha. apply lookup_lt_Some in Ha as Hk.
  unfold point.
  rewrite polyline_buffer_x by done.
  rewrite polyline_buffer_y by (by rewrite ?length_replicate).
  rewrite Ha, lookup_replicate_2 by done. done.
Qed.

Lemma setitem_last (h : heap) (buf : list A) os src :
  ∃ o buf', setitem {| base := length h; offsets := os |} src (h ++ [buf])
            = (o, h ++ [buf']).
Proof.
  rewrite setitem_run. destruct (broadcast src (length os)); eauto.
Qed.

Lemma to_polyline_heap (xdata ydata : list A) (h : heap) :
  ∃ o h', to_polyline xdata ydata h = (o, h')
          ∧ (h' = h ∨ ∃ buf, h' = h ++ [buf])
          ∧ ∀ r, o = Ok r → r = length h ∧ ∃ buf, h' = h ++ [buf].
Proof.
  rewrite to_polyline_run. case_decide.
  - eexists _, _. split; [done |]. split; [eauto |].
    intros r [= <-]. eauto.
  - eexists _, _. split; [done |]. split; [eauto |]. by intros r [=].
Qed.

Lemma series_to_polyline_heap (xdata ydata : list A) (h : heap) :
  ∃ o h', series_to_polyline xdata ydata h = (o, h')
          ∧ (h' = h ∨ ∃ buf, h' = h ++ [buf])
          ∧ ∀ r, o = Ok r → r = length h ∧ ∃ buf, h' = h ++ [buf].
Proof.
  rewrite series_to_polyline_run.
  destruct (broadcast ydata (length xdata)).
  - eexists _, _. split; [done |]. split; [eauto |].
    intros r' [= <-]. eauto.
  - eexists _, _. split; [done |]. split; [eauto |]. by intros r [=].
Qed.

Lemma series_to_polystep_heap (xdata ydata : list A) (h : heap) :
  ∃ o h', series_to_polystep xdata ydata h = (o, h')
          ∧ (h' = h ∨ ∃ buf, h' = h ++ [buf])
          ∧ ∀ r, o = Ok r → r = length h ∧ ∃ buf, h' = h ++ [buf].
Proof.
  unfold series_to_polystep, bind, QPolygonF.
  destruct (if (2 * Z.of_nat (length xdata) - 1 <? 0)%Z
            then QPolygonF_negative (2 * Z.of_nat (length xdata) - 1)%Z
            else Some (Z.to_nat (2 * Z.of_nat (length xdata) - 1)))
    as [p |].
  2: { eexists _, _. split; [done |]. split; [eauto |]. by intros r [=]. }
  rewrite frombuffer_run. unfold getslice; cbn [base offsets].
  repeat
    match goal with
    | |- context [setitem {| base := length h; offsets := ?os |} ?src
                    (h ++ [?buf])] =>
        let o := fresh "o" in
        let b := fresh "buf" in
        let H := fresh "Hset" in
        destruct (setitem_last h buf os src) as (o & b & H);
        rewrite H; clear H; destruct o as [[] | ?]
    end;
    (eexists _, _; split; [done |]; split; [eauto |]);
    try (by intros r [=]);
    intros r [= <-]; eauto.
Qed.

(** X4. The converters never touch a polygon that was there before: the heap
    afterwards is the heap before, followed by at most one new polygon, and
    a returned reference is that new polygon. This holds for all inputs,
    failing ones included. *)
Theorem converters_only_append (xdata ydata : list A) (h : heap) :
  (∃ o h', to_polyline xdata ydata h = (o, h')
           ∧ (h' = h ∨ ∃ buf, h' = h ++ [buf])
           ∧ ∀ r, o = Ok r → r = length h ∧ ∃ buf, h' = h ++ [buf])
  ∧ (∃ o h', series_to_polyline xdata ydata h = (o, h')
             ∧ (h' = h ∨ ∃ buf, h' = h ++ [buf])
             ∧ ∀ r, o = Ok r → r = length h ∧ ∃ buf, h' = h ++ [buf])
  ∧ (∃ o h', series_to_polystep xdata ydata h = (o, h')
             ∧ (h' = h ∨ ∃ buf, h' = h ++ [buf])
             ∧ ∀ r, o = Ok r → r = length h ∧ ∃ buf, h' = h ++ [buf]).
Proof.
  split; [apply to_polyline_heap |].
  split; [apply series_to_polyline_heap | apply series_to_polystep_heap].
Qed.

(** X5. [start] does not reset the totals, and the view never calls [reset]:
    after a new [start] and any series of [track] calls, [totals()] is what it
    was before plus the displacement of this drag. *)
Theorem tracker_accumulates (self : MouseTracker.t) (e0 : QMouseEvent)
    (events : list QMouseEvent) :
  ∃ self' ds,
    track_all events (MouseTracker.start e0 self) = Ok (self', ds)
    ∧ MouseTracker.totals self'
      = ((MouseTracker.totals self).1
         + (event_x (default e0 (last events)) - event_x e0),
         (MouseTracker.totals self).2
         + (event_y (default e0 (last events)) - event_y e0))%Z.
Proof.
  destruct (track_all_from events (MouseTracker.start e0 self)
              (event_x e0) (event_y e0))
    as (self' & ds & Hrun & _ & Hsum & Htot); [done | done |].
  exists self', ds. split; [done |].
  rewrite Htot, Hsum. simpl. by destruct (last events).
Qed.

(** ** Invariants of the view *)

Lemma mousePressEvent_tracker_ready event (self : TestChartView) :
  tracker_ready self → tracker_ready (mousePressEvent event self).
Proof.
  unfold tracker_ready, mousePressEvent.
  destruct (button event); try done;
    try destruct (modifiers event =? ShiftModifier)%Z; simpl; eauto.
Qed.

Lemma release_tail_flags event (mid : TestChartView) :
  let self' :=
    set_zoom_active false
      (set_pan_active false
         (if _rubber_band_active (super QChartView_mouseReleaseEvent event mid)
          then _disable_rubber_band
                 (super QChartView_mouseReleaseEvent event mid)
          else super QChartView_mouseReleaseEvent event mid)) in
  _pan_active self' = false ∧ _zoom_active self' = false
  ∧ _mouse_tracker self' = _mouse_tracker mid
  ∧ _rubber_band_active self' = false
  ∧ rubberBand self'
    = (if _rubber_band_active mid then NoRubberBand else rubberBand mid).
Proof.
  cbv zeta. change (_rubber_band_active (super QChartView_mouseReleaseEvent event mid))
    with (_rubber_band_active mid).
  destruct (_rubber_band_active mid) eqn:Hband; simpl; rewrite ?Hband; done.
Qed.

Lemma mouseReleaseEvent_flags event (self self' : TestChartView) :
  mouseReleaseEvent event self = Ok self' →
  _pan_active self' = false ∧ _zoom_active self' = false
  ∧ _mouse_tracker self' = _mouse_tracker self
  ∧ _rubber_band_active self' = false
  ∧ rubberBand self'
    = (if _rubber_band_active self then NoRubberBand else rubberBand self).
Proof.
  unfold mouseReleaseEvent.
  destruct (button event); cbv zeta beta iota;
    try (intros [= <-]; apply release_tail_flags).
  destruct (reset_axes (chart self)) as [c |]; [| done].
  intros [= <-]. apply (release_tail_flags event (set_chart c self)).
Qed.

Lemma mouseMoveEvent_flags event (self self' : TestChartView) :
  mouseMoveEvent event self = Ok self' →
  _pan_active self' = _pan_active self
  ∧ _zoom_active self' = _zoom_active self
  ∧ _rubber_band_active self' = _rubber_band_active self
  ∧ rubberBand self' = rubberBand self
  ∧ (_pan_active self = true ∨ _zoom_active self = true →
     MouseTracker._x (_mouse_tracker self') = Some (event_x event)
     ∧ MouseTracker._y (_mouse_tracker self') = Some (event_y event))
  ∧ (_pan_active self = false → _zoom_active self = false →
     _mouse_tracker self' = _mouse_tracker self).
Proof.
  unfold mouseMoveEvent, MouseTracker.track.
  destruct (_pan_active self) eqn:Hpan.
  - destruct (MouseTracker._x (_mouse_tracker self)); [| done].
    destruct (MouseTracker._y (_mouse_tracker self)); [| done].
    intros [= <-]. simpl. repeat split; done.
  - destruct (_zoom_active self) eqn:Hzoom.
    + destruct (MouseTracker._x (_mouse_tracker self)); [| done].
      destruct (MouseTracker._y (_mouse_tracker self)); [| done].
      simpl. destruct (axes (chart self)) as [[ax ay] |]; [| done].
      intros [= <-]. simpl. repeat split; done.
    + intros [= <-]. simpl. rewrite Hpan, Hzoom. intuition congruence.
Qed.

Lemma deliver_tracker_ready a (self self' : TestChartView) :
  deliver a self = Ok self' → tracker_ready self → tracker_ready self'.
Proof.
  destruct a as [event | event | event]; simpl.
  - intros [= <-]. apply mousePressEvent_tracker_ready.
  - intros Hrun _. apply mouseReleaseEvent_flags in Hrun as (Hp & Hz & _).
    unfold tracker_ready. rewrite Hp, Hz. intros [? | ?]; done.
  - intros Hrun Hready.
    apply mouseMoveEvent_flags in Hrun as (Hp & Hz & _ & _ & Hpos & _).
    unfold tracker_ready. rewrite Hp, Hz. intros Hflag.
    destruct (Hpos Hflag) as [-> ->]. eauto.
Qed.

Lemma deliver_band_consistent a (self self' : TestChartView) :
  deliver a self = Ok self' → band_consistent self → band_consistent self'.
Proof.
  unfold band_consistent.
  destruct a as [event | event | event]; simpl.
  - intros [= <-]. unfold mousePressEvent.
    destruct (button event); try done.
    destruct (modifiers event =? ShiftModifier)%Z; simpl; done.
  - intros Hrun Hcons.
    apply mouseReleaseEvent_flags in Hrun as (_ & _ & _ & -> & ->).
    destruct (_rubber_band_active self); [done |].
    split; [done |]. intros Hr. by apply Hcons in Hr.
  - intros Hrun.
    apply mouseMoveEvent_flags in Hrun as (_ & _ & -> & -> & _). done.
Qed.

(** X8. In every state the view reaches from its initial state by handled
    mouse events, a set pan or zoom flag comes with a started tracker (so
    [track] cannot hit a missing position), and the flag
    [_rubber_band_active] is set exactly when the widget is in rectangle
    rubber-band mode. *)
Theorem view_invariants (chart0 : TestChart) (actions : list MouseAction)
    (self : TestChartView) :
  deliver_all actions (TestChartView_init chart0) = Ok self →
  tracker_ready self ∧ band_consistent self.
Proof.
  assert (Hgen : ∀ actions (v v' : TestChartView),
            deliver_all actions v = Ok v' →
            tracker_ready v ∧ band_consistent v →
            tracker_ready v' ∧ band_consistent v').
  { clear. intros actions. induction actions as [| a actions IH];
      intros v v' Hrun [Hready Hcons]; simpl in Hrun.
    - by injection Hrun as <-.
    - destruct (deliver a v) as [mid | e] eqn:Ha; [| done].
      apply (IH mid); [done |]. split.
      + by apply (deliver_tracker_ready a v).
      + by apply (deliver_band_consistent a v). }
  intros Hrun. apply (Hgen actions _ _ Hrun).
  split.
  - intros [? | ?]; done.
  - split; done.
Qed.

Lemma deliver_recorded r a (self self' : TestChartView) :
  deliver a self = Ok self' →
  recorded r (chart self) → recorded r (chart self').
Proof.
  destruct a as [event | event | event]; simpl.
  - intros [= <-]. apply mousePressEvent_recorded.
  - apply mouseReleaseEvent_recorded.
  - apply mouseMoveEvent_recorded.
Qed.

Lemma deliver_handled r a (self : TestChartView) :
  recorded r (chart self) → tracker_ready self →
  ∃ self', deliver a self = Ok self'.
Proof.
  intros Hrec Hready. destruct a as [event | event | event]; simpl.
  - by eexists.
  - apply mouseReleaseEvent_Ok_iff. right. by exists r.
  - destruct Hrec as ([[ax ay] Hax] & _).
    unfold mouseMoveEvent, MouseTracker.track.
    destruct (_pan_active self) eqn:Hpan.
    + destruct Hready as [[x ->] [y ->]]; [by left |]. by eexists.
    + destruct (_zoom_active self) eqn:Hzoom; [| by eexists].
      destruct Hready as [[x ->] [y ->]]; [by right |].
      simpl. rewrite Hax. by eexists.
Qed.

Lemma deliver_all_handled r actions :
  ∀ self : TestChartView,
    recorded r (chart self) → tracker_ready self →
    ∃ self', deliver_all actions self = Ok self'.
Proof.
  induction actions as [| a actions IH]; intros self Hrec Hready; simpl.
  - by eexists.
  - destruct (deliver_handled r a self Hrec Hready) as [mid Ha]. rewrite Ha.
    apply IH.
    + by apply (deliver_recorded r a self).
    + by apply (deliver_tracker_ready a self).
Qed.

(** X9. Once the chart has its axes and recorded ranges, the view handles
    every sequence of presses, releases and moves without raising, however
    the buttons are combined. *)
Theorem mouse_events_handled (r : Ranges) (chart0 : TestChart)
    (actions : list MouseAction) :
  recorded r chart0 →
  ∃ self, deliver_all actions (TestChartView_init chart0) = Ok self.
Proof.
  intros Hrec. apply (deliver_all_handled r); [done |].
  intros [? | ?]; done.
Qed.

Lemma same_attributes_refl (c : TestChart) : same_attributes c c.
Proof. unfold same_attributes. repeat split; done. Qed.

Lemma same_attributes_trans (c1 c2 c3 : TestChart) :
  same_attributes c1 c2 → same_attributes c2 c3 → same_attributes c1 c3.
Proof.
  unfold same_attributes.
  intros (-> & -> & -> & -> & -> & H12) (-> & -> & -> & -> & -> & H23).
  repeat split; try done; intros ?; [by apply H12, H23 | by apply H23, H12].
Qed.

Lemma same_attributes_move (f : Ranges → Ranges) (c : TestChart) :
  same_attributes c (set_axes (f <$> axes c) c).
Proof.
  unfold same_attributes. simpl. repeat split; try done.
  - intros [r Hr]. destruct (axes c); [done | discriminate Hr].
  - intros [r ->]. done.
Qed.

Lemma deliver_same_attributes a (self self' : TestChartView) :
  deliver a self = Ok self' → same_attributes (chart self) (chart self').
Proof.
  destruct a as [event | event | event]; simpl.
  - intros [= <-]. rewrite mousePressEvent_chart. apply same_attributes_move.
  - unfold mouseReleaseEvent.
    assert (Htail : ∀ mid : TestChartView,
              same_attributes (chart self) (chart mid) →
              same_attributes (chart self)
                (chart
                   (set_zoom_active false
                      (set_pan_active false
                         (if _rubber_band_active
                               (super QChartView_mouseReleaseEvent event mid)
                          then _disable_rubber_band
                                 (super QChartView_mouseReleaseEvent event mid)
                          else super QChartView_mouseReleaseEvent event mid))))).
    { intros mid Hmid.
      apply (same_attributes_trans _ (chart mid)); [done |].
      destruct (_rubber_band_active
                  (super QChartView_mouseReleaseEvent event mid));
        simpl; apply same_attributes_move. }
    destruct (button event); cbv zeta beta iota;
      try (intros [= <-]; apply Htail, same_attributes_refl).
    unfold reset_axes, setRange_attr.
    destruct (axes (chart self)) as [[ax ay] |] eqn:Hax; [| done].
    destruct (_x_min (chart self)) as [x0 |]; [| done].
    destruct (_x_max (chart self)) as [x1 |]; [| done].
    destruct (_y_min (chart self)) as [y0 |]; [| done].
    destruct (_y_max (chart self)) as [y1 |]; [| done].
    intros [= <-].
    apply (Htail (set_chart
                    (set_axes (Some (setRange x0 x1 ax, setRange y0 y1 ay))
                       (chart self))
                    self)).
    unfold same_attributes. simpl. rewrite Hax. repeat split; eauto.
  - unfold mouseMoveEvent.
    destruct (_pan_active self).
    + destruct (MouseTracker.track event (_mouse_tracker self))
        as [[tracker [dx dy]] | e]; [| done].
      intros [= <-]. simpl.
      apply (same_attributes_trans _
               (set_axes (QChart_scroll (- dx) dy <$> axes (chart self))
                  (chart self)));
        apply same_attributes_move.
    + destruct (_zoom_active self).
      * destruct (MouseTracker.track event (_mouse_tracker self))
          as [[tracker [dx dy]] | e]; [| done].
        simpl. destruct (axes (chart self)) as [[ax ay] |] eqn:Hax; [| done].
        intros [= <-]. simpl.
        apply (same_attributes_trans _
                 (set_axes (Some (zoom_axis dx ax, zoom_axis (- dy) ay))
                    (chart self))).
        -- unfold same_attributes. simpl. rewrite Hax. repeat split; eauto.
        -- apply (same_attributes_move _
                    (set_axes (Some (zoom_axis dx ax, zoom_axis (- dy) ay))
                       (chart self))).
      * intros [= <-]. simpl. apply same_attributes_move.
Qed.

(** X10. Mouse handling only ever moves the axis ranges: over any handled
    sequence of events the attached series and the four recorded attributes
    stay what they were, and no axis appears or disappears. *)
Theorem mouse_events_keep_attributes (actions : list MouseAction)
    (self self' : TestChartView) :
  deliver_all actions self = Ok self' →
  same_attributes (chart self) (chart self').
Proof.
  revert self. induction actions as [| a actions IH]; intros self Hrun;
    simpl in Hrun.
  - injection Hrun as <-. apply same_attributes_refl.
  - destruct (deliver a self) as [mid | e] eqn:Ha; [| done].
    apply (same_attributes_trans _ (chart mid)).
    + by apply (deliver_same_attributes a).
    + by apply IH.
Qed.

(** ** A pan, move by move *)

Lemma pan_moves (moves : list QMouseEvent) :
  (∀ e rb r, QChartView_mouseMoveEvent e rb r = r) →
  ∀ (self : TestChartView) (x y : Z),
    _pan_active self = true →
    MouseTracker._x (_mouse_tracker self) = Some x →
    MouseTracker._y (_mouse_tracker self) = Some y →
    ∃ self' ds,
      deliver_all (Move <$> moves) self = Ok self'
      ∧ track_all moves (_mouse_tracker self) = Ok (_mouse_tracker self', ds)
      ∧ axes (chart self') = scroll_all ds <$> axes (chart self)
      ∧ _pan_active self' = true.
Proof.
  intros Hbase. induction moves as [| e moves IH]; intros self x y Hpan Hx Hy.
  - exists self, []. simpl. repeat split; try done.
    by destruct (axes (chart self)).
  - simpl. unfold mouseMoveEvent, MouseTracker.track. rewrite Hpan, Hx, Hy.
    cbv zeta beta iota.
    set (tracker := MouseTracker.Build_t _ _ _ _).
    set (mid := super QChartView_mouseMoveEvent e _).
    destruct (IH mid (event_x e) (event_y e))
      as (self' & ds & Hrun & Htrack & Hax & Hpan'); [done | done | done |].
    exists self', (((event_x e - x)%Z, (event_y e - y)%Z) :: ds).
    split; [done |]. split.
    { change (_mouse_tracker mid) with tracker in Htrack. by rewrite Htrack. }
    split; [| done].
    rewrite Hax. subst mid. simpl.
    destruct (axes (chart self)) as [r |]; simpl; [| done].
    by rewrite Hbase.
Qed.

(** X11. A pan is the tracked path replayed on the chart: after a left press
    without Shift and any number of moves, every move has succeeded, the
    chart has been scrolled by (-dx, dy) once per tracked delta, in order, the
    deltas add up to the displacement from the press position, and panning is
    still active. The base-class move handler is taken to leave the axes
    alone. *)
Theorem pan_drag (press : QMouseEvent) (moves : list QMouseEvent)
    (self : TestChartView) :
  button press = LeftButton → modifiers press ≠ ShiftModifier →
  (∀ e rb r, QChartView_mouseMoveEvent e rb r = r) →
  ∃ self' ds,
    deliver_all (Move <$> moves) (mousePressEvent press self) = Ok self'
    ∧ track_all moves (MouseTracker.start press (_mouse_tracker self))
      = Ok (_mouse_tracker self', ds)
    ∧ axes (chart self')
      = scroll_all ds <$> axes (chart (mousePressEvent press self))
    ∧ sum_deltas ds
      = (event_x (default press (last moves)) - event_x press,
         event_y (default press (last moves)) - event_y press)%Z
    ∧ _pan_active self' = true.
Proof.
  intros Hleft Hmod Hbase.
  assert (Hpress : _mouse_tracker (mousePressEvent press self)
                   = MouseTracker.start press (_mouse_tracker self)
                   ∧ _pan_active (mousePressEvent press self) = true).
  { unfold mousePressEvent. rewrite Hleft.
    by destruct (Z.eqb_spec (modifiers press) ShiftModifier). }
  destruct Hpress as [Htracker Hpan].
  destruct (pan_moves moves Hbase (mousePressEvent press self)
              (event_x press) (event_y press))
    as (self' & ds & Hrun & Htrack & Hax & Hpan');
    [done | by rewrite Htracker | by rewrite Htracker |].
  rewrite Htracker in Htrack.
  destruct (track_all_from moves (MouseTracker.start press (_mouse_tracker self))
              (event_x press) (event_y press))
    as (t' & ds' & Htrack' & _ & Hsum & _); [done | done |].
  rewrite Htrack in Htrack'. injection Htrack' as _ <-.
  exists self', ds. repeat split; try done.
  rewrite Hsum. by destruct (last moves).
Qed.

(** ** The window *)

Lemma series_to_polystep_Ok (xdata ydata : list A) (h : heap) :
  1 ≤ length xdata → length xdata = length ydata →
  ∃ buf, series_to_polystep xdata ydata h = (Ok (length h), h ++ [buf]).
Proof.
  intros Hn Hlen. rewrite series_to_polystep_run by done. cbv zeta.
  rewrite broadcast_same by done.
  rewrite broadcast_same by (rewrite length_take; lia).
  by eexists.
Qed.


(** What both methods do with the polygon once the converter has returned it. *)
Ltac add_after_converter Hrun :=
  unfold bind; rewrite Hrun; unfold points_of;
  rewrite list_lookup_middle by done;
  unfold lift, createDefaultAxes, ret; cbn [default from_option id series addSeries];
  match goal with
  | |- context [QChart_createDefaultAxes ?s] =>
      destruct (QChart_createDefaultAxes s) as [[? ?] |]
  end; done.

(** X12. On equal-length inputs of at least one sample, [add_data] stores the
    step polygon as a new series and asks the toolkit for default axes. If
    the toolkit builds them, the window counts one more curve, the chart
    records the ends of the new axes, and the view's mouse state is left
    alone; if it builds none, the call raises AttributeError. *)
Theorem add_data_adds_curve (xdata ydata : list A) (self : TestWindow)
    (h : heap) :
  1 ≤ length xdata → length xdata = length ydata →
  ∃ buf,
    series_to_polystep xdata ydata h = (Ok (length h), h ++ [buf])
    ∧ add_data xdata ydata self h
      = match QChart_createDefaultAxes (series (chart (view self)) ++ [buf]) with
        | Some (axis_x, axis_y) =>
            (Ok {| ncurves := ncurves self + 1;
                   view :=
                     set_chart
                       {| series := series (chart (view self)) ++ [buf];
                          axes := Some (axis_x, axis_y);
                          _x_min := Some (axis_min axis_x);
                          _x_max := Some (axis_max axis_x);
                          _y_min := Some (axis_min axis_y);
                          _y_max := Some (axis_max axis_y) |}
                       (view self) |},
             h ++ [buf])
        | None => (Raise AttributeError, h ++ [buf])
        end.
Proof.
  intros Hn Hlen.
  destruct (series_to_polystep_Ok xdata ydata h Hn Hlen) as [buf Hrun].
  exists buf. split; [done |].
  unfold add_data. add_after_converter Hrun.
Qed.


Lemma add_step (a : Add) (self self' : TestWindow) (h h' : heap) :
  add a self h = (Ok self', h') →
  ncurves self' = (ncurves self + 1)%Z
  ∧ length (series (chart (view self')))
    = S (length (series (chart (view self))))
  ∧ length h' = S (length h)
  ∧ (∃ r, recorded r (chart (view self')))
  ∧ _mouse_tracker (view self') = _mouse_tracker (view self)
  ∧ _pan_active (view self') = _pan_active (view self)
  ∧ _zoom_active (view self') = _zoom_active (view self).
Proof.
  assert (Hgen : ∀ conv : M ref,
            (∃ o h1, conv h = (o, h1)
                     ∧ (h1 = h ∨ ∃ buf, h1 = h ++ [buf])
                     ∧ ∀ r, o = Ok r → r = length h ∧ ∃ buf, h1 = h ++ [buf]) →
            (polyline <- conv ;;
             curve <- points_of polyline ;;
             let chart := addSeries curve (chart (view self)) in
             chart <- lift (createDefaultAxes chart) ;;
             ret {| ncurves := ncurves self + 1;
                    view := set_chart chart (view self) |}) h
            = (Ok self', h') →
            ncurves self' = (ncurves self + 1)%Z
            ∧ length (series (chart (view self')))
              = S (length (series (chart (view self))))
            ∧ length h' = S (length h)
            ∧ (∃ r, recorded r (chart (view self')))
            ∧ _mouse_tracker (view self') = _mouse_tracker (view self)
            ∧ _pan_active (view self') = _pan_active (view self)
            ∧ _zoom_active (view self') = _zoom_active (view self)).
  { intros conv (o & h1 & Hrun & _ & Hok). unfold bind. rewrite Hrun.
    destruct o as [r | e]; [| done].
    destruct (Hok r eq_refl) as [-> [buf ->]].
    unfold points_of. rewrite list_lookup_middle by done.
    unfold lift, ret. cbn [default from_option id].
    destruct (createDefaultAxes (addSeries buf (chart (view self))))
      as [c |] eqn:Hc; [| done].
    intros [= <- <-]. simpl.
    destruct (createDefaultAxes_recorded _ _ Hc) as (r & _ & Hrec).
    unfold createDefaultAxes in Hc.
    destruct (QChart_createDefaultAxes
                (series (addSeries buf (chart (view self)))))
      as [[ax ay] |]; [| done].
    injection Hc as <-. simpl.
    rewrite !length_app. simpl. repeat split; eauto; lia. }
  destruct a as [xdata ydata | xdata ydata]; simpl.
  - apply Hgen, series_to_polystep_heap.
  - apply Hgen, series_to_polyline_heap.
Qed.

Lemma add_all_steps (adds : list Add) :
  ∀ (self self' : TestWindow) (h h' : heap),
    add_all adds self h = (Ok self', h') →
    ncurves self' = (ncurves self + Z.of_nat (length adds))%Z
    ∧ length (series (chart (view self')))
      = length (series (chart (view self))) + length adds
    ∧ length h' = length h + length adds
    ∧ (adds ≠ [] → ∃ r, recorded r (chart (view self')))
    ∧ _mouse_tracker (view self') = _mouse_tracker (view self)
    ∧ _pan_active (view self') = _pan_active (view self)
    ∧ _zoom_active (view self') = _zoom_active (view self).
Proof.
  induction adds as [| a adds IH]; intros self self' h h' Hrun; simpl in Hrun.
  - injection Hrun as <- <-. simpl. repeat split; try done; lia.
  - unfold bind in Hrun.
    destruct (add a self h) as [[mid | e] h1] eqn:Ha; [| done].
    apply add_step in Ha as (Hn & Hs & Hh & Hrec & Ht & Hp & Hz).
    destruct (IH _ _ _ _ Hrun) as (Hn' & Hs' & Hh' & Hrec' & Ht' & Hp' & Hz').
    rewrite Hn', Hs', Hh', Ht', Hp', Hz', Hn, Hs, Hh, Ht, Hp, Hz.
    simpl length. repeat split; try done; try lia.
    intros _. destruct adds as [| a' adds']; [| by apply Hrec'].
    simpl in Hrun. by injection Hrun as <- <-.
Qed.

(** X14. A window built from a new one by successful [add_data] and
    [add_scatter] calls counts its curves right: [ncurves] is the number of
    calls, the chart holds that many series, and each call has built exactly
    one polygon. The view's tracker and drag flags are as in a new window. *)
Theorem window_counts (adds : list Add) (self : TestWindow) (h h' : heap) :
  add_all adds TestWindow_init h = (Ok self, h') →
  ncurves self = Z.of_nat (length adds)
  ∧ length (series (chart (view self))) = length adds
  ∧ length h' = length h + length adds
  ∧ _mouse_tracker (view self) = MouseTracker.init
  ∧ _pan_active (view self) = false
  ∧ _zoom_active (view self) = false.
Proof.
  intros Hrun.
  apply add_all_steps in Hrun as (Hn & Hs & Hh & _ & Ht & Hp & Hz).
  rewrite Hn, Hs, Hh, Ht, Hp, Hz. simpl. repeat split; try done; lia.
Qed.

(** X15. After at least one successful [add_data] or [add_scatter] on a new
    window, the chart has its axes and recorded ranges, and the view handles
    every sequence of mouse events without raising. *)
Theorem window_mouse_ready (adds : list Add) (self : TestWindow) (h h' : heap)
    (actions : list MouseAction) :
  add_all adds TestWindow_init h = (Ok self, h') → adds ≠ [] →
  (∃ r, recorded r (chart (view self)))
  ∧ ∃ self', deliver_all actions (view self) = Ok self'.
Proof.
  intros Hrun Hne.
  apply add_all_steps in Hrun as (_ & _ & _ & Hrec & _ & Hp & Hz).
  destruct (Hrec Hne) as [r Hr]. split; [by exists r |].
  apply (deliver_all_handled r); [done |].
  unfold tracker_ready. rewrite Hp, Hz. simpl. intros [? | ?]; done.
Qed.

(** ** The step polygon, segment by segment *)

(** X16. Every segment of the polygon built by [series_to_polystep] is
    horizontal or vertical: points 2k and 2k+1 have the same y, points 2k+1
    and 2k+2 have the same x. *)
Theorem polystep_segments (xdata ydata : list A) (h : heap) :
  1 ≤ length xdata → length xdata = length ydata →
  ∃ buf,
    series_to_polystep xdata ydata h = (Ok (length h), h ++ [buf])
    ∧ (∀ k p q, point buf (2 * k) = Some p → point buf (2 * k + 1) = Some q →
         p.2 = q.2)
    ∧ (∀ k p q, point buf (2 * k + 1) = Some p → point buf (2 * k + 2) = Some q →
         p.1 = q.1).
Proof.
  intros Hn Hlen.
  rewrite series_to_polystep_run by done. cbv zeta.
  rewrite broadcast_same by done.
  rewrite broadcast_same by (rewrite length_take; lia).
  destruct (polystep_buffer_lookups xdata ydata) as (Hl & Hev & Hod); [done |].
  eexists. split; [done |].
  set (buf := scatter _ _ _) in *.
  assert (Hin : ∀ j p, point buf j = Some p → j < 2 * length xdata - 1).
  { intros j p Hp. unfold point in Hp.
    destruct (buf !! (2 * j)) as [a |] eqn:Ha; [| done].
    apply lookup_lt_Some in Ha. lia. }
  split; intros k p q Hp Hq.
  - apply Hin in Hq as Hk.
    unfold point in Hp, Hq.
    replace (2 * (2 * k)) with (4 * k) in Hp by lia.
    replace (2 * (2 * k + 1)) with (4 * k + 2) in Hq by lia.
    replace (4 * k + 2 + 1) with (4 * k + 3) in Hq by lia.
    destruct (Hev k) as [Hx Hy]; [lia |].
    destruct (Hod k) as [Hx' Hy']; [lia |].
    rewrite Hx, Hy in Hp. rewrite Hx', Hy' in Hq.
    destruct (xdata !! k), (ydata !! k), (xdata !! (k + 1)); try done.
    by injection Hp as <-; injection Hq as <-.
  - apply Hin in Hq as Hk.
    unfold point in Hp, Hq.
    replace (2 * (2 * k + 1)) with (4 * k + 2) in Hp by lia.
    replace (4 * k + 2 + 1) with (4 * k + 3) in Hp by lia.
    replace (2 * (2 * k + 2)) with (4 * (k + 1)) in Hq by lia.
    destruct (Hod k) as [Hx Hy]; [lia |].
    destruct (Hev (k + 1)) as [Hx' Hy']; [lia |].
    rewrite Hx, Hy in Hp. rewrite Hx', Hy' in Hq.
    destruct (xdata !! (k + 1)), (ydata !! k), (ydata !! (k + 1)); try done.
    by injection Hp as <-; injection Hq as <-.
Qed.

(** ** No samples *)

(** C10, amended. On empty inputs [series_to_polystep] computes a point
    count of 2*0 - 1 = -1 and asks the toolkit for a polygon of that size.
    The toolkit answers a negative size with an empty polygon, so the call
    does not fail: it returns a polygon of 0 points, not of 2*0 - 1, and
    [add_data] stores it as an empty series and goes on to the default
    axes. *)
Theorem polystep_empty_input (self : TestWindow) (h : heap) :
  QPolygonF_negative (2 * Z.of_nat (length (@nil A)) - 1)%Z = Some 0 →
  series_to_polystep [] [] h = (Ok (length h), h ++ [[]])
  ∧ polygon_size (length h) (h ++ [[]]) = (Ok 0, h ++ [[]])
  ∧ add_data [] [] self h
    = match QChart_createDefaultAxes (series (chart (view self)) ++ [[]]) with
      | Some (axis_x, axis_y) =>
          (Ok {| ncurves := ncurves self + 1;
                 view :=
                   set_chart
                     {| series := series (chart (view self)) ++ [[]];
                        axes := Some (axis_x, axis_y);
                        _x_min := Some (axis_min axis_x);
                        _x_max := Some (axis_max axis_x);
                        _y_min := Some (axis_min axis_y);
                        _y_max := Some (axis_max axis_y) |}
                     (view self) |},
           h ++ [[]])
      | None => (Raise AttributeError, h ++ [[]])
      end.
Proof.
  intros Hneg.
  pose proof (polystep_empty_accepted h Hneg) as Hrun.
  split; [done |]. split.
  - by rewrite polygon_size_run.
  - unfold add_data. add_after_converter Hrun.
Qed.

(** X18. With a constructor that answers a negative size with an empty
    polygon, the same call returns an empty polygon when y is empty, and
    also when y has length 1: that mismatch goes unnoticed. *)
Theorem polystep_no_samples_accepted (ydata : list A) (h : heap) :
  QPolygonF_negative (-1)%Z = Some 0 → length ydata ≤ 1 →
  series_to_polystep [] ydata h = (Ok (length h), h ++ [[]]).
Proof.
  intros Hneg Hlen. unfold series_to_polystep, bind, QPolygonF.
  change (2 * Z.of_nat (length []) - 1)%Z with (-1)%Z.
  change (-1 <? 0)%Z with true. cbv iota. rewrite Hneg.
  change (replicate (2 * 0) zero) with (@nil A).
  rewrite frombuffer_run. unfold getslice; cbn [base offsets].
  change (seq 0 (2 * (length (@nil A) `div` 2))) with (@nil nat).
  destruct ydata as [| y0 [| y1 ydata]]; [| | simpl in Hlen; lia].
  - rewrite setitem_run. simpl. unfold ret. by rewrite !list_alter_id.
  - rewrite setitem_run. simpl. unfold ret. by rewrite !list_alter_id.
Qed.

(** ** A window without data *)

Lemma deliver_without_axes a (self : TestChartView) :
  chart self = TestChart_init → tracker_ready self →
  (∃ self', deliver a self = Ok self' ∧ chart self' = TestChart_init)
  ∨ deliver a self = Raise AttributeError.
Proof.
  intros Hchart Hready. destruct a as [event | event | event]; simpl.
  - left. eexists. split; [done |].
    by rewrite mousePressEvent_chart, Hchart.
  - unfold mouseReleaseEvent.
    destruct (button event); cbv zeta beta iota;
      try (left; eexists; split; [done |];
           destruct (_rubber_band_active
                       (super QChartView_mouseReleaseEvent event self));
           simpl; by rewrite Hchart).
    right. by rewrite Hchart.
  - unfold mouseMoveEvent, MouseTracker.track.
    destruct (_pan_active self) eqn:Hpan.
    + destruct Hready as [[x ->] [y ->]]; [by left |].
      left. eexists. split; [done |]. simpl. by rewrite Hchart.
    + destruct (_zoom_active self) eqn:Hzoom.
      * destruct Hready as [[x ->] [y ->]]; [by right |].
        right. simpl. by rewrite Hchart.
      * left. eexists. split; [done |]. simpl. by rewrite Hchart.
Qed.

(** X19. On a window to which no data was added, mouse events never touch
    the chart, and the only exception they can raise is the AttributeError
    of a missing axis (a middle release, or a move while zooming): [track]
    never meets a tracker that was not started. *)
Theorem mouse_events_without_axes (actions : list MouseAction) :
  (∃ self, deliver_all actions (view TestWindow_init) = Ok self
           ∧ chart self = TestChart_init)
  ∨ deliver_all actions (view TestWindow_init) = Raise AttributeError.
Proof.
  assert (Hgen : ∀ actions (v : TestChartView),
            chart v = TestChart_init → tracker_ready v →
            (∃ self, deliver_all actions v = Ok self
                     ∧ chart self = TestChart_init)
            ∨ deliver_all actions v = Raise AttributeError).
  { clear actions. intros actions.
    induction actions as [| a actions IH]; intros v Hchart Hready; simpl.
    - left. by exists v.
    - destruct (deliver_without_axes a v Hchart Hready)
        as [(mid & Ha & Hmid) | Ha]; rewrite Ha; [| by right].
      apply IH; [done |]. by apply (deliver_tracker_ready a v). }
  apply Hgen; [done |]. intros [? | ?]; done.
Qed.

(** ** A zoom, move by move *)



End Toolkit.

(** ** Closed instances *)

Lemma polyline_interleaves_witness :
  length [1; 2; 3]%Z = length [4; 5; 6]%Z
  ∧ ∃ buf,
      series_to_polyline 0%Z Sample.negative_size [1; 2; 3]%Z [4; 5; 6]%Z []
      = (Ok 0, [buf])
      ∧ buf !! 2 = Some 2%Z ∧ buf !! 3 = Some 5%Z.
Proof.
  split; [reflexivity |].
  destruct (polyline_interleaves 0%Z Sample.negative_size [1; 2; 3]%Z [4; 5; 6]%Z []
              eq_refl)
    as (buf & _ & Hrun & _ & _ & Hk).
  exists buf. split; [exact Hrun |].
  exact (Hk 1 ltac:(simpl; lia)).
Defined.

Lemma polystep_staircase_witness :
  1 ≤ length [1; 2; 3]%Z
  ∧ length [1; 2; 3]%Z = length [4; 5; 6]%Z
  ∧ ∃ buf,
      series_to_polystep 0%Z Sample.negative_size [1; 2; 3]%Z [4; 5; 6]%Z []
      = (Ok 0, [buf])
      ∧ point buf 2 = Some (2, 5)%Z ∧ point buf 3 = Some (3, 5)%Z.
Proof.
  split; [simpl; lia |]. split; [reflexivity |].
  destruct (polystep_staircase 0%Z Sample.negative_size [1; 2; 3]%Z [4; 5; 6]%Z []
              ltac:(simpl; lia) eq_refl)
    as (buf & Hrun & _ & _ & Hev & Hod).
  exists buf. split; [exact Hrun |]. split.
  - exact (Hev 1 2%Z 5%Z eq_refl eq_refl).
  - exact (Hod 1 3%Z 5%Z eq_refl eq_refl).
Defined.

(** C3. [series_to_polyline] on x of length 2 and y of length 1 does not
    fail: numpy broadcasts the single y to both points. *)
Theorem series_to_polyline_short_y (QPolygonF_negative : Z → option nat) :
  series_to_polyline 0%Z QPolygonF_negative [1; 2]%Z [5]%Z []
  = (Ok 0, [[1; 5; 2; 5]%Z]).
Proof. reflexivity. Qed.

Lemma middle_release_restores_witness :
  ∃ chart1 self1 self2,
    createDefaultAxes (A:=Z) Sample.default_axes
      (addSeries [1; 4; 2; 5]%Z TestChart_init) = Ok chart1
    ∧ deliver_all Sample.scroll Sample.base Sample.base Sample.base
        [Press (Sample.mouse LeftButton 0 10 10);
         Move (Sample.mouse NoButton 0 15 12);
         Release (Sample.mouse LeftButton 0 15 12);
         Press (Sample.mouse RightButton 0 0 0);
         Move (Sample.mouse NoButton 0 3 (-4));
         Release (Sample.mouse RightButton 0 3 (-4))]
        (TestChartView_init chart1) = Ok self1
    ∧ axes (chart self1) ≠ Some Sample.ranges
    ∧ mouseReleaseEvent Sample.base (Sample.mouse MiddleButton 0 3 (-4)) self1
      = Ok self2
    ∧ axes (chart self2) = Some Sample.ranges.
Proof.
  eexists _, _. 
  assert (Hcreate :
    createDefaultAxes (A:=Z) Sample.default_axes
      (addSeries [1; 4; 2; 5]%Z TestChart_init)
    = Ok {| series := [[1; 4; 2; 5]%Z]; axes := Some Sample.ranges;
            _x_min := Some 0%float; _x_max := Some 100%float;
            _y_min := Some 0%float; _y_max := Some 50%float |}) by reflexivity.
  pose proof
    (λ self1 Hrun,
       middle_release_restores Sample.default_axes Sample.scroll Sample.base
         Sample.base Sample.base _ _ (TestChartView_init _) self1
         [Press (Sample.mouse LeftButton 0 10 10);
          Move (Sample.mouse NoButton 0 15 12);
          Release (Sample.mouse LeftButton 0 15 12);
          Press (Sample.mouse RightButton 0 0 0);
          Move (Sample.mouse NoButton 0 3 (-4));
          Release (Sample.mouse RightButton 0 3 (-4))]
         (Sample.mouse MiddleButton 0 3 (-4))
         Hcreate eq_refl Hrun eq_refl (λ _ _, eq_refl)) as Hthm.
  edestruct Hthm as (self2 & ax & ay & Hrel & _ & Hax & _).
  { vm_compute. reflexivity. }
  exists self2. split; [exact Hcreate |]. split; [vm_compute; reflexivity |].
  split.
  { intros Heq.
    apply (f_equal (λ o : option Ranges,
                      match o with
                      | Some r => PrimFloat.ltb (axis_min r.1) 0
                      | None => false
                      end)) in Heq.
    vm_compute in Heq. discriminate. }
  split; [exact Hrel | exact Hax].
Defined.



Lemma left_press_pans_or_bands_witness :
  _pan_active
    (mousePressEvent Sample.base (Sample.mouse LeftButton NoModifier 10 20)
       (TestChartView_init (A:=Z) TestChart_init)) = true
  ∧ (∃ self',
       mouseMoveEvent Sample.scroll Sample.base (Sample.mouse NoButton 0 13 18)
         (mousePressEvent Sample.base (Sample.mouse LeftButton NoModifier 10 20)
            (TestChartView_init (A:=Z)
               (set_axes (Some Sample.ranges) TestChart_init)))
       = Ok self'
       ∧ axes (chart self') = Some (Sample.scroll (-3) (-2) Sample.ranges))
  ∧ rubberBand
      (mousePressEvent Sample.base (Sample.mouse LeftButton ShiftModifier 10 20)
         (TestChartView_init (A:=Z) TestChart_init)) = RectangleRubberBand.
Proof.
  destruct (left_press_pans_or_bands (A:=Z) Sample.scroll Sample.base Sample.base)
    as (Hpress & Hmove & Hband).
  split; [| split].
  - exact (proj1 (Hpress (Sample.mouse LeftButton NoModifier 10 20)
                    (TestChartView_init TestChart_init) eq_refl
                    ltac:(vm_compute; discriminate))).
  - destruct
      (Hmove (Sample.mouse NoButton 0 13 18)
         (mousePressEvent Sample.base (Sample.mouse LeftButton NoModifier 10 20)
            (TestChartView_init (set_axes (Some Sample.ranges) TestChart_init)))
         10%Z 20%Z eq_refl eq_refl eq_refl (λ _ _, eq_refl))
      as (self' & Hrun & Hax & _).
    exists self'. split; [exact Hrun | exact Hax].
  - exact (proj1 (Hband (Sample.mouse LeftButton ShiftModifier 10 20)
                    (TestChartView_init TestChart_init) eq_refl eq_refl)).
Defined.

(** C7 as stated fails for Shift held together with Control: the press is
    made with the shift modifier, the modifiers are not equal to Shift alone,
    and the press activates panning instead of the rubber band. *)
Lemma shift_control_press_pans :
  Z.land (Z.lor ShiftModifier ControlModifier) ShiftModifier = ShiftModifier
  ∧ _pan_active
      (mousePressEvent Sample.base
         (Sample.mouse LeftButton (Z.lor ShiftModifier ControlModifier) 0 0)
         (TestChartView_init (A:=Z) TestChart_init)) = true
  ∧ rubberBand
      (mousePressEvent Sample.base
         (Sample.mouse LeftButton (Z.lor ShiftModifier ControlModifier) 0 0)
         (TestChartView_init (A:=Z) TestChart_init)) = NoRubberBand.
Proof. repeat split. Qed.

Lemma release_clears_flags_witness :
  button (Sample.mouse LeftButton 0 4 4) ≠ MiddleButton
  ∧ ∃ self',
      mouseReleaseEvent Sample.base (Sample.mouse LeftButton 0 4 4)
        (mousePressEvent Sample.base (Sample.mouse LeftButton 0 0 0)
           (TestChartView_init (A:=Z) TestChart_init))
      = Ok self'
      ∧ _pan_active self' = false ∧ _zoom_active self' = false.
Proof.
  assert (Hb : button (Sample.mouse LeftButton 0 4 4) ≠ MiddleButton)
    by (intros Heq; discriminate Heq).
  split; [exact Hb |].
  destruct
    (release_clears_flags (A:=Z) Sample.scroll Sample.base Sample.base
       (Sample.mouse LeftButton 0 4 4)
       (mousePressEvent Sample.base (Sample.mouse LeftButton 0 0 0)
          (TestChartView_init TestChart_init))
       (or_introl Hb))
    as (self' & Hrun & Hpan & Hzoom & _).
  exists self'. split; [exact Hrun |]. split; [exact Hpan | exact Hzoom].
Defined.

(** C9 as stated fails on the view of a new window, whose chart has no axes
    and no recorded ranges: after a left press, a middle-button release
    raises and the pan flag stays set. *)
Lemma middle_release_without_axes :
  _pan_active
    (mousePressEvent Sample.base (Sample.mouse LeftButton 0 0 0)
       (view (TestWindow_init (A:=Z)))) = true
  ∧ mouseReleaseEvent Sample.base (Sample.mouse MiddleButton 0 0 0)
      (mousePressEvent Sample.base (Sample.mouse LeftButton 0 0 0)
         (view (TestWindow_init (A:=Z))))
    = Raise AttributeError.
Proof. split; reflexivity. Qed.

(** ** Closed instances of the further properties *)

Lemma series_to_polystep_mismatch_witness :
  1 ≤ length [1; 2; 3]%Z
  ∧ length [4]%Z ≠ length [1; 2; 3]%Z
  ∧ series_to_polystep 0%Z Sample.negative_size [1; 2; 3]%Z [4]%Z []
    = (Raise (ValueError_broadcast 0 2), [[1; 4; 2; 0; 2; 4; 3; 0; 3; 4]%Z]).
Proof.
  assert (Hn : 1 ≤ length [1; 2; 3]%Z) by (simpl; lia).
  assert (Hne : length [4]%Z ≠ length [1; 2; 3]%Z) by (simpl; lia).
  split; [exact Hn |]. split; [exact Hne |].
  exact (series_to_polystep_mismatch 0%Z Sample.negative_size [1; 2; 3]%Z [4]%Z []
           Hn Hne).
Defined.

Lemma view_invariants_witness :
  ∃ self,
    deliver_all Sample.scroll Sample.base Sample.base Sample.base
      [Press (Sample.mouse LeftButton ShiftModifier 0 0);
       Move (Sample.mouse NoButton ShiftModifier 5 5);
       Press (Sample.mouse RightButton 0 5 5)]
      (TestChartView_init (A:=Z) TestChart_init) = Ok self
    ∧ tracker_ready self ∧ band_consistent self.
Proof.
  eexists. split; [reflexivity |].
  exact (view_invariants Sample.scroll Sample.base Sample.base Sample.base
           TestChart_init
           [Press (Sample.mouse LeftButton ShiftModifier 0 0);
            Move (Sample.mouse NoButton ShiftModifier 5 5);
            Press (Sample.mouse RightButton 0 5 5)]
           _ eq_refl).
Defined.

Lemma mouse_events_handled_witness :
  recorded (A:=Z) Sample.ranges
    {| series := [[1; 4; 2; 5]%Z]; axes := Some Sample.ranges;
       _x_min := Some 0%float; _x_max := Some 100%float;
       _y_min := Some 0%float; _y_max := Some 50%float |}
  ∧ ∃ self,
      deliver_all Sample.scroll Sample.base Sample.base Sample.base
        [Press (Sample.mouse LeftButton 0 0 0);
         Press (Sample.mouse RightButton 0 0 0);
         Move (Sample.mouse NoButton 0 7 7);
         Release (Sample.mouse MiddleButton 0 7 7);
         Move (Sample.mouse NoButton 0 9 9)]
        (TestChartView_init
           {| series := [[1; 4; 2; 5]%Z]; axes := Some Sample.ranges;
              _x_min := Some 0%float; _x_max := Some 100%float;
              _y_min := Some 0%float; _y_max := Some 50%float |}) = Ok self.
Proof.
  assert (Hrec : recorded (A:=Z) Sample.ranges
            {| series := [[1; 4; 2; 5]%Z]; axes := Some Sample.ranges;
               _x_min := Some 0%float; _x_max := Some 100%float;
               _y_min := Some 0%float; _y_max := Some 50%float |}).
  { split; [eexists; reflexivity |]. repeat split. }
  split; [exact Hrec |].
  exact (mouse_events_handled Sample.scroll Sample.base Sample.base Sample.base
           Sample.ranges _ _ Hrec).
Defined.

Lemma mouse_events_keep_attributes_witness :
  ∃ self',
    deliver_all Sample.scroll Sample.base Sample.base Sample.base
      [Press (Sample.mouse LeftButton 0 0 0);
       Move (Sample.mouse NoButton 0 7 7);
       Release (Sample.mouse LeftButton 0 7 7)]
      (TestChartView_init (A:=Z)
         (set_axes (Some Sample.ranges) TestChart_init)) = Ok self'
    ∧ same_attributes (set_axes (Some Sample.ranges) TestChart_init)
        (chart self').
Proof.
  eexists. split; [reflexivity |].
  exact (mouse_events_keep_attributes Sample.scroll Sample.base Sample.base
           Sample.base
           [Press (Sample.mouse LeftButton 0 0 0);
            Move (Sample.mouse NoButton 0 7 7);
            Release (Sample.mouse LeftButton 0 7 7)]
           (TestChartView_init (set_axes (Some Sample.ranges) TestChart_init))
           _ eq_refl).
Defined.

Lemma pan_drag_witness :
  ∃ self' ds,
    deliver_all Sample.scroll Sample.base Sample.base Sample.base
      (Move <$> [Sample.mouse NoButton 0 3 1; Sample.mouse NoButton 0 8 (-2)])
      (mousePressEvent Sample.base (Sample.mouse LeftButton 0 1 1)
         (TestChartView_init (A:=Z)
            (set_axes (Some Sample.ranges) TestChart_init))) = Ok self'
    ∧ axes (chart self') = Some (scroll_all Sample.scroll ds Sample.ranges)
    ∧ sum_deltas ds = (7, -3)%Z.
Proof.
  destruct
    (pan_drag (A:=Z) Sample.scroll Sample.base Sample.base Sample.base
       (Sample.mouse LeftButton 0 1 1)
       [Sample.mouse NoButton 0 3 1; Sample.mouse NoButton 0 8 (-2)]
       (TestChartView_init (set_axes (Some Sample.ranges) TestChart_init))
       eq_refl ltac:(vm_compute; discriminate) (λ _ _ _, eq_refl))
    as (self' & ds & Hrun & _ & Hax & Hsum & _).
  exists self', ds. split; [exact Hrun |]. split; [exact Hax | exact Hsum].
Defined.

Lemma add_data_adds_curve_witness :
  1 ≤ length [1; 2]%Z
  ∧ length [1; 2]%Z = length [3; 4]%Z
  ∧ ∃ self',
      add_data 0%Z Sample.negative_size Sample.default_axes [1; 2]%Z [3; 4]%Z
        TestWindow_init []
      = (Ok self', [[1; 3; 2; 3; 2; 4]%Z])
      ∧ ncurves self' = 1%Z.
Proof.
  assert (Hn : 1 ≤ length [1; 2]%Z) by (simpl; lia).
  split; [exact Hn |]. split; [reflexivity |].
  destruct (add_data_adds_curve 0%Z Sample.negative_size Sample.default_axes
              [1; 2]%Z [3; 4]%Z TestWindow_init [] Hn eq_refl)
    as (buf & Hstep & Hadd).
  injection Hstep as <-.
  eexists. split; [exact Hadd | reflexivity].
Defined.


Lemma window_counts_witness :
  ∃ self h',
    add_all 0%Z Sample.negative_size Sample.default_axes
      [AddData [1; 2]%Z [3; 4]%Z; AddScatter [1; 2]%Z [5]%Z]
      TestWindow_init [] = (Ok self, h')
    ∧ ncurves self = 2%Z ∧ length h' = 2.
Proof.
  eexists _, _. split; [reflexivity |].
  destruct (window_counts 0%Z Sample.negative_size Sample.default_axes
              [AddData [1; 2]%Z [3; 4]%Z; AddScatter [1; 2]%Z [5]%Z]
              _ [] _ eq_refl)
    as (Hn & _ & Hh & _).
  split; [exact Hn | exact Hh].
Defined.

Lemma window_mouse_ready_witness :
  ∃ self h' self',
    add_all 0%Z Sample.negative_size Sample.default_axes
      [AddData [1; 2]%Z [3; 4]%Z] TestWindow_init [] = (Ok self, h')
    ∧ [AddData [1; 2]%Z [3; 4]%Z] ≠ []
    ∧ deliver_all Sample.scroll Sample.base Sample.base Sample.base
        [Press (Sample.mouse RightButton 0 0 0);
         Move (Sample.mouse NoButton 0 4 4);
         Release (Sample.mouse MiddleButton 0 4 4)]
        (view self) = Ok self'.
Proof.
  assert (Hne : [AddData [1; 2]%Z [3; 4]%Z] ≠ []) by discriminate.
  destruct (window_mouse_ready 0%Z Sample.negative_size Sample.default_axes
              Sample.scroll Sample.base Sample.base Sample.base
              [AddData [1; 2]%Z [3; 4]%Z] _ [] _
              [Press (Sample.mouse RightButton 0 0 0);
               Move (Sample.mouse NoButton 0 4 4);
               Release (Sample.mouse MiddleButton 0 4 4)]
              eq_refl Hne)
    as (_ & self' & Hrun).
  eexists _, _, self'. split; [reflexivity |]. split; [exact Hne | exact Hrun].
Defined.

Lemma polystep_segments_witness :
  1 ≤ length [1; 2; 3]%Z
  ∧ length [1; 2; 3]%Z = length [4; 5; 6]%Z
  ∧ ∃ buf,
      series_to_polystep 0%Z Sample.negative_size [1; 2; 3]%Z [4; 5; 6]%Z []
      = (Ok 0, [buf])
      ∧ ∀ p q, point buf 2 = Some p → point buf 3 = Some q → p.2 = q.2.
Proof.
  assert (Hn : 1 ≤ length [1; 2; 3]%Z) by (simpl; lia).
  split; [exact Hn |]. split; [reflexivity |].
  destruct (polystep_segments 0%Z Sample.negative_size [1; 2; 3]%Z [4; 5; 6]%Z []
              Hn eq_refl)
    as (buf & Hrun & Hh & _).
  exists buf. split; [exact Hrun | exact (Hh 1)].
Defined.

Lemma polystep_empty_input_witness :
  Sample.negative_size (2 * Z.of_nat (length (@nil Z)) - 1)%Z = Some 0
  ∧ series_to_polystep 0%Z Sample.negative_size [] [] [] = (Ok 0, [[]])
  ∧ ∃ self',
      add_data 0%Z Sample.negative_size Sample.default_axes [] []
        TestWindow_init []
      = (Ok self', [[]])
      ∧ ncurves self' = 1%Z.
Proof.
  assert (Hneg : Sample.negative_size (2 * Z.of_nat (length (@nil Z)) - 1)%Z
                 = Some 0) by reflexivity.
  split; [exact Hneg |].
  destruct (polystep_empty_input 0%Z Sample.negative_size Sample.default_axes
              TestWindow_init [] Hneg)
    as (Hrun & _ & Hadd).
  split; [exact Hrun |].
  eexists. split; [exact Hadd | reflexivity].
Defined.

(** C10 as stated fails on the toolkit the code imports: for x and y empty
    the requested size is 2*0 - 1 = -1, the constructor answers with an empty
    polygon, and [series_to_polystep] returns it, a polygon of 0 points. *)
Lemma polystep_empty_returns :
  (2 * Z.of_nat (length (@nil Z)) - 1)%Z = (-1)%Z
  ∧ series_to_polystep 0%Z Sample.negative_size [] [] [] = (Ok 0, [[]])
  ∧ polygon_size (A:=Z) 0 [[]] = (Ok 0, [[]]).
Proof. repeat split. Qed.

Lemma polystep_no_samples_accepted_witness :
  (λ _ : Z, Some 0) (-1)%Z = Some 0
  ∧ length [7]%Z ≤ 1
  ∧ series_to_polystep 0%Z (λ _, Some 0) [] [7]%Z [] = (Ok 0, [[]]).
Proof.
  assert (Hlen : length [7]%Z ≤ 1) by (simpl; lia).
  split; [reflexivity |]. split; [exact Hlen |].
  exact (polystep_no_samples_accepted 0%Z (λ _, Some 0) [7]%Z [] eq_refl Hlen).
Defined.

